(** * UTM-SYSTEM: the operator dashboard and the core it talks to

    A shallow embedding of [client/src/app/page.tsx] (the React dashboard of
    the UTM system) together with a model of the authorization core that the
    dashboard consumes.

    - JavaScript numbers are IEEE-754 binary64 values: they are embedded as
      primitive floats, so that [NaN], [0] and [-0] are the values the code
      sees.
    - The [telemetryData] object, used as a dictionary from drone identifier
      to sample list, is a plain JavaScript object: its own properties are
      kept in order, reads fall through to [Object.prototype], and an updater
      that throws is an error of the model.
    - Event handlers are functions from the React state they read to the
      state they write and the list of effects they perform ([alert], [fetch],
      [console.error], ...), in program order. *)

From Stdlib Require Import QArith Lqa Floats.
From stdpp Require Import gmap strings list fin_maps.

Local Open Scope string_scope.
Local Open Scope nat_scope.
Local Open Scope list_scope.

(** ** JavaScript primitives used by the page *)

Module JS.

(** [ToBoolean] on a number: [NaN], [+0] and [-0] are falsy. *)
Definition truthy (x : float) : bool :=
  negb (PrimFloat.is_nan x || PrimFloat.eqb x 0%float).

(** [Array.prototype.slice(-n)]: the last [n] elements, the whole array
    when it is shorter. *)
Definition slice_last {A : Type} (n : nat) (l : list A) : list A :=
  drop (length l - n) l.

(** [Array.prototype.filter] with the two-argument callback
    [(element, index) => ...]. *)
Fixpoint filter_from {A : Type} (f : A -> nat -> bool) (i : nat) (l : list A)
  : list A :=
  match l with
  | [] => []
  | x :: l' => if f x i then x :: filter_from f (S i) l'
               else filter_from f (S i) l'
  end.

Definition filter_index {A : Type} (f : A -> nat -> bool) (l : list A)
  : list A :=
  filter_from f 0 l.

(** [Array.prototype.join(sep)] on an array of strings. *)
Fixpoint join (sep : string) (l : list string) : string :=
  match l with
  | [] => ""
  | [x] => x
  | x :: l' => x +:+ sep +:+ join sep l'
  end.

(** [Array.prototype.find]. *)
Fixpoint find {A : Type} (f : A -> bool) (l : list A) : option A :=
  match l with
  | [] => None
  | x :: l' => if f x then Some x else find f l'
  end.

End JS.

(** ** Types of the page *)

Module Pilot.
Record t := mk
  { id : string; name : string; phone : string; email : string;
    created_at : string }.
End Pilot.

Module Drone.
Record t := mk
  { id : string; brand : string; model : string; serial_number : string;
    pilot_id : string; created_at : string }.
End Drone.

Record Waypoint := mkWaypoint { lat : float; lng : float }.

(** The union type of [Flight.status]. *)
Inductive FlightStatus := pending | approved | rejected | active | completed.

Definition status_string (s : FlightStatus) : string :=
  match s with
  | pending => "pending"
  | approved => "approved"
  | rejected => "rejected"
  | active => "active"
  | completed => "completed"
  end.

Definition status_eqb (a b : FlightStatus) : bool :=
  String.eqb (status_string a) (status_string b).

Module Flight.
(** [description?] and [violations?] are optional: [None] stands for an
    absent (or [null]) field, both of which are falsy. *)
Record t := mk
  { id : string;
    drone_id : string;
    pilot_id : string;
    start_time : string;
    end_time : string;
    altitude : float;
    waypoints : list Waypoint;
    description : option string;
    status : FlightStatus;
    created_at : string;
    violations : option (list string) }.
End Flight.

Module TelemetryData.
Record t := mk
  { drone_id : string;
    lat : float;
    lng : float;
    altitude : float;
    speed : float;
    battery : float;
    timestamp : string }.
End TelemetryData.

(** A parsed websocket message [{ type, data }]. *)
Module WsMessage.
Record t := mk { type : string; data : TelemetryData.t }.
End WsMessage.

Module FlightForm.
Record t := mk
  { drone_id : string;
    pilot_id : string;
    start_time : string;
    end_time : string;
    altitude : float;
    description : string;
    waypoints : list Waypoint }.

(** The initial value of [useState], also the value [createFlight] resets
    the form to. *)
Definition initial : t :=
  {| drone_id := ""; pilot_id := ""; start_time := ""; end_time := "";
     altitude := 50%float; description := ""; waypoints := [] |}.
End FlightForm.

(** ** Plain objects used as dictionaries *)

(** [telemetryData] is an ordinary object, [{}] at first, used as a
    dictionary from drone identifier to sample list.  Two things set such an
    object apart from a finite map, and both are modelled: reading a key the
    object does not own falls through to [Object.prototype], and the own
    keys are enumerated array indices first, in ascending order, then the
    other keys in the order of their creation. *)
Module JSObject.

(** The own enumerable properties, in the order of their creation. *)
Definition t (V : Type) : Type := list (string * V).

(** The property names every object inherits from [Object.prototype]. *)
Definition prototypeKeys : list string :=
  [ "constructor"; "__defineGetter__"; "__defineSetter__"; "hasOwnProperty";
    "__lookupGetter__"; "__lookupSetter__"; "isPrototypeOf";
    "propertyIsEnumerable"; "toString"; "valueOf"; "__proto__";
    "toLocaleString" ].

Fixpoint own {V : Type} (obj : t V) (key : string) : option V :=
  match obj with
  | [] => None
  | (k, v) :: rest => if String.eqb k key then Some v else own rest key
  end.

(** The outcome of [obj[key]]: an own value, a value inherited from
    [Object.prototype] (a function, or the prototype itself for
    ["__proto__"]: truthy and not iterable), or [undefined]. *)
Inductive Property (V : Type) :=
| Own (value : V)
| Inherited
| Undefined.

Arguments Own {V} value.
Arguments Inherited {V}.
Arguments Undefined {V}.

Definition get {V : Type} (obj : t V) (key : string) : Property V :=
  match own obj key with
  | Some v => Own v
  | None =>
      if bool_decide (key ∈ prototypeKeys) then Inherited else Undefined
  end.

Definition digit (c : Ascii.ascii) : option N :=
  let n := Ascii.N_of_ascii c in
  if (48 <=? n)%N && (n <=? 57)%N then Some (n - 48)%N else None.

Fixpoint decimal (s : string) (acc : N) : option N :=
  match s with
  | EmptyString => Some acc
  | String c rest =>
      match digit c with
      | Some d => decimal rest (10 * acc + d)%N
      | None => None
      end
  end.

(** A key is an array index when it is the canonical decimal text of an
    integer below [2^32 - 1]. *)
Definition arrayIndex (key : string) : option N :=
  match key with
  | EmptyString => None
  | String c rest =>
      if (Ascii.N_of_ascii c =? 48)%N && negb (String.eqb rest "") then None
      else
        match decimal key 0 with
        | Some n => if (n <? 4294967295)%N then Some n else None
        | None => None
        end
  end.

(** Stable insertion by ascending index. *)
Fixpoint insertIndexed {V : Type} (i : N) (entry : string * V)
    (sorted : list (string * V)) : list (string * V) :=
  match sorted with
  | [] => [entry]
  | e :: rest =>
      match arrayIndex (fst e) with
      | Some j =>
          if (j <? i)%N then e :: insertIndexed i entry rest
          else entry :: sorted
      | None => entry :: sorted
      end
  end.

Fixpoint indexed {V : Type} (obj : t V) : list (string * V) :=
  match obj with
  | [] => []
  | e :: rest =>
      match arrayIndex (fst e) with
      | Some i => insertIndexed i e (indexed rest)
      | None => indexed rest
      end
  end.

Fixpoint named {V : Type} (obj : t V) : list (string * V) :=
  match obj with
  | [] => []
  | e :: rest =>
      match arrayIndex (fst e) with
      | Some _ => named rest
      | None => e :: named rest
      end
  end.

(** [Object.entries(obj)]. *)
Definition entries {V : Type} (obj : t V) : list (string * V) :=
  indexed obj ++ named obj.

(** [{...obj}]: the own properties are copied in the order of
    [Object.entries]. *)
Definition spread {V : Type} (obj : t V) : t V := entries obj.

(** [[key]: value] in an object literal: an own property is (re)defined; an
    existing one keeps its place. *)
Fixpoint define {V : Type} (key : string) (value : V) (obj : t V) : t V :=
  match obj with
  | [] => [(key, value)]
  | (k, v) :: rest =>
      if String.eqb k key then (k, value) :: rest
      else (k, v) :: define key value rest
  end.

End JSObject.

(** ** The websocket handler: [wsRef.current.onmessage] *)

(** The updater of [setTelemetryData].  [None] stands for the [TypeError]
    that the spread [...(prev[id] || [])] raises when [prev[id]] is a value
    inherited from [Object.prototype]. *)
Definition onmessage (message : WsMessage.t)
    (prev : JSObject.t (list TelemetryData.t))
  : option (JSObject.t (list TelemetryData.t)) :=
  if String.eqb (WsMessage.type message) "telemetry" then
    let telemetry := WsMessage.data message in
    match JSObject.get prev (TelemetryData.drone_id telemetry) with
    | JSObject.Own telemetryList =>
        Some (JSObject.define (TelemetryData.drone_id telemetry)
                (JS.slice_last 50 (telemetryList ++ [telemetry]))
                (JSObject.spread prev))
    | JSObject.Undefined =>
        Some (JSObject.define (TelemetryData.drone_id telemetry)
                (JS.slice_last 50 ([] ++ [telemetry]))
                (JSObject.spread prev))
    | JSObject.Inherited => None
    end
  else Some prev.

(** The state after a sequence of messages, starting from [useState({})].
    An updater that throws takes the page down: the messages that follow
    find no component to update. *)
Definition receive (messages : list WsMessage.t)
  : option (JSObject.t (list TelemetryData.t)) :=
  foldl (fun st m => st ≫= onmessage m) (Some []) messages.

(** The samples the feed delivered for drone [d], in arrival order. *)
Definition received_for (d : string) (messages : list WsMessage.t)
  : list TelemetryData.t :=
  filter (fun s => TelemetryData.drone_id s = d)
    (WsMessage.data <$>
       filter (fun m => WsMessage.type m = "telemetry") messages).

(** What one message leaves under the key [d], given what was there. *)
Definition storedAfter (message : WsMessage.t)
    (before : option (list TelemetryData.t)) (d : string)
  : option (list TelemetryData.t) :=
  if String.eqb (WsMessage.type message) "telemetry"
     && String.eqb (TelemetryData.drone_id (WsMessage.data message)) d
  then Some (JS.slice_last 50 (default [] before ++ [WsMessage.data message]))
  else before.

(** The reading of "the handler appends the sample to the drone's list":
    the list stored afterwards is the list stored before followed by the
    sample. *)
Definition appendsSample (message : WsMessage.t)
    (prev : JSObject.t (list TelemetryData.t)) : Prop :=
  ∃ next,
    onmessage message prev = Some next
    ∧ JSObject.own next (TelemetryData.drone_id (WsMessage.data message))
      = Some (default []
                (JSObject.own prev
                   (TelemetryData.drone_id (WsMessage.data message)))
              ++ [WsMessage.data message]).

(** No telemetry message of the sequence is for a drone identifier that
    names a property of [Object.prototype]. *)
Definition ordinaryIds (messages : list WsMessage.t) : Prop :=
  ∀ m, m ∈ messages → WsMessage.type m = "telemetry" →
       TelemetryData.drone_id (WsMessage.data m) ∉ JSObject.prototypeKeys.

(** ** Flight-form updaters *)

Definition addWaypoint (lat lng : float) (prev : FlightForm.t) : FlightForm.t :=
  {| FlightForm.drone_id := FlightForm.drone_id prev;
     FlightForm.pilot_id := FlightForm.pilot_id prev;
     FlightForm.start_time := FlightForm.start_time prev;
     FlightForm.end_time := FlightForm.end_time prev;
     FlightForm.altitude := FlightForm.altitude prev;
     FlightForm.description := FlightForm.description prev;
     FlightForm.waypoints :=
       FlightForm.waypoints prev ++ [ {| lat := lat; lng := lng |} ] |}.

(** [index] is a JavaScript number; the model lets it range over the
    integers, array positions being the non-negative ones. *)
Definition removeWaypoint (index : Z) (prev : FlightForm.t) : FlightForm.t :=
  {| FlightForm.drone_id := FlightForm.drone_id prev;
     FlightForm.pilot_id := FlightForm.pilot_id prev;
     FlightForm.start_time := FlightForm.start_time prev;
     FlightForm.end_time := FlightForm.end_time prev;
     FlightForm.altitude := FlightForm.altitude prev;
     FlightForm.description := FlightForm.description prev;
     FlightForm.waypoints :=
       JS.filter_index (fun _ i => negb (Z.eqb (Z.of_nat i) index))
         (FlightForm.waypoints prev) |}.

(** A waypoint both of whose coordinates pass [if (lat && lng)]. *)
Definition truthyWaypoint (w : Waypoint) : Prop :=
  JS.truthy (lat w) = true ∧ JS.truthy (lng w) = true.

(** ** Status presentation *)

Definition getStatusColor (status : string) : string :=
  if String.eqb status "approved" then "text-green-600"
  else if String.eqb status "rejected" then "text-red-600"
  else if String.eqb status "active" then "text-blue-600"
  else if String.eqb status "completed" then "text-gray-600"
  else "text-yellow-600".

Definition getStatusText (status : string) : string :=
  if String.eqb status "pending" then "Ожидание"
  else if String.eqb status "approved" then "Одобрено"
  else if String.eqb status "rejected" then "Отклонено"
  else if String.eqb status "active" then "Активно"
  else if String.eqb status "completed" then "Завершено"
  else status.

(** ** Effects of the event handlers *)

Definition API_BASE : string := "http://localhost:8000/api".

Inductive Effect :=
| PreventDefault
| Alert (message : string)
| FetchPost (url : string) (body : option FlightForm.t)
| ConsoleError (label : string)
| LoadData.

(** What [await fetch(...)] followed by [await response.json()] can yield:
    a rejected promise, or a response with its [ok] flag and its body
    ([None] when the body does not parse). *)
Inductive FetchResult :=
| NetworkError
| Response (ok : bool) (json : option Flight.t).

(** The message [createFlight] shows for the flight the server returned:
    the branch [if (newFlight.violations)] tests the truthiness of the field,
    and every array is truthy. *)
Definition creationReport (newFlight : Flight.t) : string :=
  match Flight.violations newFlight with
  | Some violations =>
      "Полет отклонен! Нарушение запретных зон: " +:+ JS.join ", " violations
  | None => "Полет одобрен!"
  end.

Section Handlers.

(** [parseFloat] and [new Date(s).toISOString()] are supplied by the
    JavaScript runtime; the latter throws a [RangeError] ([None]) on a
    string that is not a date. *)
Variable parseFloat : string -> float.
Variable toISOString : string -> option string.

Definition createFlight (flightForm : FlightForm.t)
    (server : FlightForm.t -> FetchResult)
  : FlightForm.t * list Effect :=
  if (length (FlightForm.waypoints flightForm) <? 2)%nat then
    (flightForm,
     [PreventDefault; Alert "Необходимо указать минимум 2 точки маршрута"])
  else
    match toISOString (FlightForm.start_time flightForm),
          toISOString (FlightForm.end_time flightForm) with
    | Some start_iso, Some end_iso =>
        let body :=
          {| FlightForm.drone_id := FlightForm.drone_id flightForm;
             FlightForm.pilot_id := FlightForm.pilot_id flightForm;
             FlightForm.start_time := start_iso;
             FlightForm.end_time := end_iso;
             FlightForm.altitude := FlightForm.altitude flightForm;
             FlightForm.description := FlightForm.description flightForm;
             FlightForm.waypoints := FlightForm.waypoints flightForm |} in
        let request := FetchPost (API_BASE +:+ "/flights/") (Some body) in
        match server body with
        | NetworkError =>
            (flightForm,
             [PreventDefault; request; ConsoleError "Error creating flight:"])
        | Response false _ => (flightForm, [PreventDefault; request])
        | Response true None =>
            (flightForm,
             [PreventDefault; request; ConsoleError "Error creating flight:"])
        | Response true (Some newFlight) =>
            (FlightForm.initial,
             [PreventDefault; request; Alert (creationReport newFlight);
              LoadData])
        end
    | _, _ =>
        (flightForm, [PreventDefault; ConsoleError "Error creating flight:"])
    end.

Definition simulateFlight (flightId : string) (server : string -> FetchResult)
  : list Effect :=
  let request := FetchPost (API_BASE +:+ "/simulate-flight/" +:+ flightId) None in
  match server flightId with
  | NetworkError => [request; ConsoleError "Error starting simulation:"]
  | Response true _ => [request; Alert "Симуляция полета запущена!"; LoadData]
  | Response false _ => [request]
  end.

(** The [onClick] of the add-waypoint button.  The second component is the
    content of the two inputs [waypoint-lat] and [waypoint-lng] afterwards. *)
Definition onAddWaypointClick (latInput lngInput : string)
    (flightForm : FlightForm.t)
  : FlightForm.t * (string * string) :=
  let lat := parseFloat latInput in
  let lng := parseFloat lngInput in
  if JS.truthy lat && JS.truthy lng then
    (addWaypoint lat lng flightForm, ("", ""))
  else (flightForm, (latInput, lngInput)).

(** Every way the page has of changing [flightForm]. *)
Inductive FormEvent :=
| ChangeDrone (value : string)
| ChangePilot (value : string)
| ChangeStartTime (value : string)
| ChangeEndTime (value : string)
| ChangeAltitude (value : string)
| ChangeDescription (value : string)
| ClickAddWaypoint (latInput lngInput : string)
| ClickRemoveWaypoint (index : nat)
| Submit (server : FlightForm.t -> FetchResult).

Definition formStep (prev : FlightForm.t) (e : FormEvent) : FlightForm.t :=
  match e with
  | ChangeDrone v =>
      {| FlightForm.drone_id := v;
         FlightForm.pilot_id := FlightForm.pilot_id prev;
         FlightForm.start_time := FlightForm.start_time prev;
         FlightForm.end_time := FlightForm.end_time prev;
         FlightForm.altitude := FlightForm.altitude prev;
         FlightForm.description := FlightForm.description prev;
         FlightForm.waypoints := FlightForm.waypoints prev |}
  | ChangePilot v =>
      {| FlightForm.drone_id := FlightForm.drone_id prev;
         FlightForm.pilot_id := v;
         FlightForm.start_time := FlightForm.start_time prev;
         FlightForm.end_time := FlightForm.end_time prev;
         FlightForm.altitude := FlightForm.altitude prev;
         FlightForm.description := FlightForm.description prev;
         FlightForm.waypoints := FlightForm.waypoints prev |}
  | ChangeStartTime v =>
      {| FlightForm.drone_id := FlightForm.drone_id prev;
         FlightForm.pilot_id := FlightForm.pilot_id prev;
         FlightForm.start_time := v;
         FlightForm.end_time := FlightForm.end_time prev;
         FlightForm.altitude := FlightForm.altitude prev;
         FlightForm.description := FlightForm.description prev;
         FlightForm.waypoints := FlightForm.waypoints prev |}
  | ChangeEndTime v =>
      {| FlightForm.drone_id := FlightForm.drone_id prev;
         FlightForm.pilot_id := FlightForm.pilot_id prev;
         FlightForm.start_time := FlightForm.start_time prev;
         FlightForm.end_time := v;
         FlightForm.altitude := FlightForm.altitude prev;
         FlightForm.description := FlightForm.description prev;
         FlightForm.waypoints := FlightForm.waypoints prev |}
  | ChangeAltitude v =>
      {| FlightForm.drone_id := FlightForm.drone_id prev;
         FlightForm.pilot_id := FlightForm.pilot_id prev;
         FlightForm.start_time := FlightForm.start_time prev;
         FlightForm.end_time := FlightForm.end_time prev;
         FlightForm.altitude := parseFloat v;
         FlightForm.description := FlightForm.description prev;
         FlightForm.waypoints := FlightForm.waypoints prev |}
  | ChangeDescription v =>
      {| FlightForm.drone_id := FlightForm.drone_id prev;
         FlightForm.pilot_id := FlightForm.pilot_id prev;
         FlightForm.start_time := FlightForm.start_time prev;
         FlightForm.end_time := FlightForm.end_time prev;
         FlightForm.altitude := FlightForm.altitude prev;
         FlightForm.description := v;
         FlightForm.waypoints := FlightForm.waypoints prev |}
  | ClickAddWaypoint latInput lngInput =>
      fst (onAddWaypointClick latInput lngInput prev)
  | ClickRemoveWaypoint index => removeWaypoint (Z.of_nat index) prev
  | Submit server => fst (createFlight prev server)
  end.

Definition formRun (events : list FormEvent) : FlightForm.t :=
  foldl formStep FlightForm.initial events.

End Handlers.

(** ** Rendering of the flight list *)

Inductive Action :=
| SimulateFlight (flightId : string)
| RemoveWaypoint (index : nat).

(** The part of a React element the page uses: tag, [className], [onClick]
    and children. *)
#[local] Unset Elimination Schemes.
Inductive Node :=
| Text (s : string)
| Element (tag className : string) (onClick : option Action)
    (children : list Node).
#[local] Set Elimination Schemes.

(** The actions a rendered tree lets the operator trigger. *)
Fixpoint triggers (n : Node) : list Action :=
  match n with
  | Text _ => []
  | Element _ _ onClick children =>
      option_list onClick ++
      (fix go (l : list Node) : list Action :=
         match l with
         | [] => []
         | c :: l' => triggers c ++ go l'
         end) children
  end.

(** [{cond && <element/>}]: nothing is rendered when [cond] is false. *)
Definition when (cond : bool) (n : Node) : list Node :=
  if cond then [n] else [].

Section Render.

(** Number and date formatting are the runtime's. *)
Variable numberText : float -> string.
Variable lengthText : nat -> string.
Variable toLocaleString : string -> string.

Variable drones : list Drone.t.
Variable pilots : list Pilot.t.

(** One entry of [flights.map(...)] in the flights tab. *)
Definition renderFlight (flight : Flight.t) : Node :=
  let drone :=
    JS.find (fun d => String.eqb (Drone.id d) (Flight.drone_id flight)) drones in
  let pilot :=
    JS.find (fun p => String.eqb (Pilot.id p) (Flight.pilot_id flight)) pilots in
  Element "div" "p-3 border rounded-lg" None
    [ Element "div" "flex justify-between items-start" None
        [ Element "div" "" None
            ([ Element "h3" "font-medium" None
                 [ Text (default "" (Drone.brand <$> drone)); Text " ";
                   Text (default "" (Drone.model <$> drone)) ];
               Element "p" "text-sm text-gray-600" None
                 [ Text "Пилот: "; Text (default "" (Pilot.name <$> pilot)) ];
               Element "p" "text-sm text-gray-600" None
                 [ Text "Высота: "; Text (numberText (Flight.altitude flight));
                   Text "м | Точек:"; Text " ";
                   Text (lengthText (length (Flight.waypoints flight))) ];
               Element "p" "text-sm text-gray-600" None
                 [ Text (toLocaleString (Flight.start_time flight));
                   Text " -"; Text " ";
                   Text (toLocaleString (Flight.end_time flight)) ] ]
             ++ match Flight.description flight with
                | Some d =>
                    if String.eqb d "" then [Text ""]
                    else [ Element "p" "text-sm text-gray-600" None
                             [ Text "Описание: "; Text d ] ]
                | None => []
                end);
          Element "div" "text-right" None
            ([ Element "span"
                 ("px-2 py-1 rounded text-sm "
                    +:+ getStatusColor (status_string (Flight.status flight)))
                 None
                 [ Text (getStatusText (status_string (Flight.status flight))) ] ]
             ++ when (String.eqb (status_string (Flight.status flight)) "approved")
                  (Element "button"
                     "block mt-2 bg-green-500 text-white px-3 py-1 rounded hover:bg-green-600 text-sm"
                     (Some (SimulateFlight (Flight.id flight)))
                     [ Text "Запустить симуляцию" ])) ] ].

Definition renderFlightList (flights : list Flight.t) : list Node :=
  renderFlight <$> flights.

End Render.

(** * The core behind the dashboard

    The dashboard only displays what the server decides.  The geofence check,
    the flight registry and the authorizer live in the backend. *)

Module GeofenceEngine.

Local Open Scope Q_scope.

(** Modelled from the spec: the backend's waypoint, which is not among the
    client sources: a (latitude, longitude) pair.  Coordinates are exact
    rationals. *)
Record Waypoint := mkWaypoint { lat : Q; lng : Q }.

(** Modelled from the spec: the backend's restricted zone, which is not among
    the client sources: a name and an axis-aligned rectangle. *)
Record RestrictedZone := mkZone
  { name : string; north : Q; south : Q; east : Q; west : Q }.

Definition Qlt_bool (a b : Q) : bool := negb (Qle_bool b a).
Definition qmax (a b : Q) : Q := if Qle_bool a b then b else a.
Definition qmin (a b : Q) : Q := if Qle_bool a b then a else b.

(** Modelled from the spec: the point-in-rectangle test of the backend's
    geofence check, which is not among the client sources; bounds are
    inclusive. *)
Definition inside (w : Waypoint) (z : RestrictedZone) : bool :=
  Qle_bool (south z) (lat w) && Qle_bool (lat w) (north z)
  && Qle_bool (west z) (lng w) && Qle_bool (lng w) (east z).

(** Modelled from the spec: one step of the backend's parametric clipping,
    which is not among the client sources.  The half-plane is
    [p * t <= q]; [(t_enter, t_exit)] is the surviving parameter interval.
    A segment parallel to the plane ([p = 0]) is rejected when it lies
    outside ([q < 0]); otherwise the plane is entered ([p < 0]) or left
    ([p > 0]) at [t = q / p]. *)
Definition clip (p q : Q) (interval : Q * Q) : option (Q * Q) :=
  let '(t_enter, t_exit) := interval in
  if Qeq_bool p 0 then
    if Qlt_bool q 0 then None else Some interval
  else if Qlt_bool p 0 then Some (qmax t_enter (q / p), t_exit)
  else Some (t_enter, qmin t_exit (q / p)).

(** Modelled from the spec: the backend's clipping of the segment [a -> b]
    against the four half-planes of the rectangle, which is not among the
    client sources.  The interval starts as [[0, 1]], so that what survives
    is the part of the clipped interval that overlaps [[0, 1]]. *)
Definition clipSegment (a b : Waypoint) (z : RestrictedZone)
  : option (Q * Q) :=
  let dlat := lat b - lat a in
  let dlng := lng b - lng a in
  i1 ← clip (- dlat) (lat a - south z) (0, 1);
  i2 ← clip dlat (north z - lat a) i1;
  i3 ← clip (- dlng) (lng a - west z) i2;
  clip dlng (east z - lng a) i3.

(** Modelled from the spec: the outcome of the backend's clipping test, which
    is not among the client sources: an intersection exists iff
    [t_enter <= t_exit] after the four clips. *)
Definition crosses (a b : Waypoint) (z : RestrictedZone) : bool :=
  match clipSegment a b z with
  | Some (t_enter, t_exit) => Qle_bool t_enter t_exit
  | None => false
  end.

(** Modelled from the spec: the backend's segment-rectangle test, which is
    not among the client sources: (a) an endpoint lies within the rectangle,
    or (b) the clipped segment is not empty. *)
Definition segmentIntersects (a b : Waypoint) (z : RestrictedZone) : bool :=
  inside a z || inside b z || crosses a b z.

(** Modelled from the spec: the segments the backend tests, which are not
    among the client sources: the consecutive waypoint pairs of the route. *)
Fixpoint segments (route : list Waypoint) : list (Waypoint * Waypoint) :=
  match route with
  | a :: rest =>
      match rest with
      | b :: _ => (a, b) :: segments rest
      | [] => []
      end
  | [] => []
  end.

(** Modelled from the spec: whether the backend flags a zone, which is not
    among the client sources: some segment of the route intersects it. *)
Definition violates (route : list Waypoint) (z : RestrictedZone) : bool :=
  existsb (fun s => segmentIntersects (fst s) (snd s) z) (segments route).

(** Modelled from the spec: [checkViolations] of the backend, which is not
    among the client sources: the set of the identifiers of all zones that
    some segment of the route intersects. *)
Definition checkViolations (route : list Waypoint)
    (zones : list RestrictedZone) : gset string :=
  list_to_set (name <$> filter (fun z => violates route z = true) zones).

(** The parameter [t] lies in the interval. *)
Definition within (interval : Q * Q) (t : Q) : Prop :=
  fst interval <= t /\ t <= snd interval.

Definition within_opt (o : option (Q * Q)) (t : Q) : Prop :=
  match o with Some i => within i t | None => False end.

(** The point of the segment [a -> b] at parameter [t] lies in [z]. *)
Definition pointWithin (a b : Waypoint) (z : RestrictedZone) (t : Q) : Prop :=
  south z <= lat a + t * (lat b - lat a)
  /\ lat a + t * (lat b - lat a) <= north z
  /\ west z <= lng a + t * (lng b - lng a)
  /\ lng a + t * (lng b - lng a) <= east z.

End GeofenceEngine.

Module Core.

(** Modelled from the spec: the backend's flight plan, which is not among the
    client sources; times are instants on an integer scale. *)
Record FlightPlan := mkPlan
  { drone : string;
    pilot : string;
    start_time : Z;
    end_time : Z;
    altitude : Q;
    route : list GeofenceEngine.Waypoint;
    description : option string }.

(** Modelled from the spec: the backend's flight, which is not among the
    client sources: a plan, a status and a violation set. *)
Record Flight := mkFlight
  { id : nat;
    plan : FlightPlan;
    status : FlightStatus;
    violations : gset string }.

(** Modelled from the spec: the backend's configuration, which is not among
    the client sources: the zone set, the known drones and pilots and the
    altitude bounds, all read-only to the core. *)
Record Config := mkConfig
  { zones : list GeofenceEngine.RestrictedZone;
    drones : gset string;
    pilots : gset string;
    min_altitude : Q;
    max_altitude : Q }.

(** Modelled from the spec: the backend's flight registry, which is not among
    the client sources: the flights by identifier and the next free
    identifier. *)
Record Registry := mkRegistry
  { flights : gmap nat Flight; next_id : nat }.

(** Modelled from the spec: the registry the backend starts with, which is
    not among the client sources. *)
Definition empty : Registry := {| flights := ∅; next_id := 0 |}.

(** Modelled from the spec: the failures of the backend's operations, which
    are not among the client sources. *)
Inductive Error := ValidationFailure | InvalidStateError | UnknownFlight.

(** Modelled from the spec: the registry's flight creation, which is not
    among the client sources: a fresh identifier, status [pending], no
    violations. *)
Definition create (p : FlightPlan) (r : Registry) : Flight * Registry :=
  let f := {| id := next_id r; plan := p; status := pending;
              violations := ∅ |} in
  (f, {| flights := <[ next_id r := f ]> (flights r);
         next_id := S (next_id r) |}).

(** Modelled from the spec: the authorizer's preconditions, which are not
    among the client sources. *)
Definition valid (c : Config) (p : FlightPlan) : bool :=
  (2 <=? length (route p))%nat
  && (start_time p <? end_time p)%Z
  && Qle_bool (min_altitude c) (altitude p)
  && Qle_bool (altitude p) (max_altitude c)
  && bool_decide (drone p ∈ drones c)
  && bool_decide (pilot p ∈ pilots c).

(** Modelled from the spec: the decision the authorizer commits for a
    pending flight, which is not among the client sources: [rejected] with
    the returned violation set when it is not empty, else [approved] with
    the empty set. *)
Definition decide_flight (found : gset string) (f : Flight) : Flight :=
  if bool_decide (found = ∅) then
    {| id := id f; plan := plan f; status := approved; violations := ∅ |}
  else
    {| id := id f; plan := plan f; status := rejected; violations := found |}.

(** Modelled from the spec: [FlightAuthorizer.submit], which is not among
    the client sources. *)
Definition submit (c : Config) (p : FlightPlan) (r : Registry)
  : Error + Flight * Registry :=
  if valid c p then
    let '(f, r1) := create p r in
    let found := GeofenceEngine.checkViolations (route p) (zones c) in
    let f' := decide_flight found f in
    inr (f', {| flights := <[ id f := f' ]> (flights r1);
                next_id := next_id r1 |})
  else inl ValidationFailure.

(** Modelled from the spec: the status change of a registered flight, which
    is not among the client sources: [from] is the only status the
    transition leaves. *)
Definition transition (from to : FlightStatus) (flightId : nat)
    (r : Registry) : Error + Registry :=
  match flights r !! flightId with
  | None => inl UnknownFlight
  | Some f =>
      if status_eqb (status f) from then
        inr {| flights :=
                 <[ flightId := {| id := id f; plan := plan f; status := to;
                                   violations := violations f |} ]>
                   (flights r);
               next_id := next_id r |}
      else inl InvalidStateError
  end.

(** Modelled from the spec: [TelemetrySimulator.start], which is not among
    the client sources: it fails unless the flight is [approved]. *)
Definition start (flightId : nat) (r : Registry) : Error + Registry :=
  transition approved active flightId r.

(** Modelled from the spec: the completion of a simulation, which is not
    among the client sources: the simulator moves an [active] flight to
    [completed]. *)
Definition complete (flightId : nat) (r : Registry) : Error + Registry :=
  transition active completed flightId r.

(** Modelled from the spec: the requests the backend serves, which are not
    among the client sources. *)
Inductive Request :=
| SubmitFlight (p : FlightPlan)
| StartSimulation (flightId : nat)
| CompleteSimulation (flightId : nat).

(** Modelled from the spec: the backend's handling of one request, which is
    not among the client sources: a failed request changes nothing. *)
Definition handle (c : Config) (r : Registry) (q : Request) : Registry :=
  match q with
  | SubmitFlight p =>
      match submit c p r with inr (_, r') => r' | inl _ => r end
  | StartSimulation i =>
      match start i r with inr r' => r' | inl _ => r end
  | CompleteSimulation i =>
      match complete i r with inr r' => r' | inl _ => r end
  end.

(** Modelled from the spec: the registry after a sequence of requests, the
    backend not being among the client sources. *)
Definition run (c : Config) (requests : list Request) : Registry :=
  foldl (handle c) empty requests.

(** Modelled from the spec: the consistency of status and violations that
    the registry is to maintain. *)
Definition consistent (f : Flight) : Prop :=
  (violations f ≠ ∅ ↔ status f = rejected)
  ∧ (status f = approved → violations f = ∅).

(** Every registered flight is consistent. *)
Definition registryConsistent (r : Registry) : Prop :=
  map_Forall (fun _ f => consistent f) (flights r).

End Core.

(** * The rest of the page *)

(** ** Loading the collections: [loadData] *)

Module RestrictedZone.
Record Bounds := mkBounds
  { north : float; south : float; east : float; west : float }.
Record t := mk { name : string; bounds : Bounds }.
End RestrictedZone.

(** The collections the component holds, and its loading flag. *)
Module PageState.
Record t := mk
  { pilots : list Pilot.t;
    drones : list Drone.t;
    flights : list Flight.t;
    restrictedZones : list RestrictedZone.t;
    isLoading : bool }.
End PageState.

(** What [fetch(url)] followed by [res.json()] yields for one endpoint: the
    fetch promise is rejected, or it resolves and the body parses ([Some]) or
    not ([None]).  [loadData] does not look at [res.ok]. *)
Inductive Fetched (A : Type) :=
| FetchRejected
| FetchResolved (json : option A).

Arguments FetchRejected {A}.
Arguments FetchResolved {A} json.

Module LoadResponses.
Record t := mk
  { pilotsRes : Fetched (list Pilot.t);
    dronesRes : Fetched (list Drone.t);
    flightsRes : Fetched (list Flight.t);
    zonesRes : Fetched (list RestrictedZone.t) }.
End LoadResponses.

Inductive LoadEffect :=
| FetchGet (url : string)
| LoadError (label : string).

(** [Promise.all] starts the four requests and rejects as soon as one of them
    does; the bodies are then parsed and stored one after the other, so that a
    body that does not parse stops the sequence after the setters already
    called.  [setIsLoading(false)] runs after the [try] in every case. *)
Definition loadData (server : LoadResponses.t) (st : PageState.t)
  : PageState.t * list LoadEffect :=
  let requests :=
    [ FetchGet (API_BASE +:+ "/pilots/"); FetchGet (API_BASE +:+ "/drones/");
      FetchGet (API_BASE +:+ "/flights/");
      FetchGet (API_BASE +:+ "/restricted-zones/") ] in
  let failed (pilots : list Pilot.t) (drones : list Drone.t)
      (flights : list Flight.t) :=
    ({| PageState.pilots := pilots; PageState.drones := drones;
        PageState.flights := flights;
        PageState.restrictedZones := PageState.restrictedZones st;
        PageState.isLoading := false |},
     requests ++ [LoadError "Error loading data:"]) in
  match LoadResponses.pilotsRes server, LoadResponses.dronesRes server,
        LoadResponses.flightsRes server, LoadResponses.zonesRes server with
  | FetchResolved pilotsJson, FetchResolved dronesJson,
    FetchResolved flightsJson, FetchResolved zonesJson =>
      match pilotsJson with
      | None =>
          failed (PageState.pilots st) (PageState.drones st)
            (PageState.flights st)
      | Some pilots =>
          match dronesJson with
          | None => failed pilots (PageState.drones st) (PageState.flights st)
          | Some drones =>
              match flightsJson with
              | None => failed pilots drones (PageState.flights st)
              | Some flights =>
                  match zonesJson with
                  | None => failed pilots drones flights
                  | Some zones =>
                      ({| PageState.pilots := pilots;
                          PageState.drones := drones;
                          PageState.flights := flights;
                          PageState.restrictedZones := zones;
                          PageState.isLoading := false |}, requests)
                  end
              end
          end
      end
  | _, _, _, _ =>
      failed (PageState.pilots st) (PageState.drones st) (PageState.flights st)
  end.

(** ** The dashboard tab *)


(** [flights.slice(-5).reverse()]: [reverse] works in place, on the copy
    that [slice] made. *)
Definition recentFlights (flights : list Flight.t) : list Flight.t :=
  reverse (JS.slice_last 5 flights).

(** ** The map tab *)

(** The props of a [Polyline] element: [key], [positions] and
    [pathOptions]. *)
Module Polyline.
Record t := mk
  { key : string;
    positions : list (float * float);
    color : string;
    weight : float;
    opacity : float }.
End Polyline.

(** The route drawn for one flight; [0.7] is the binary64 value nearest to
    it. *)
Definition routePolyline (flight : Flight.t) : Polyline.t :=
  {| Polyline.key := Flight.id flight;
     Polyline.positions :=
       (fun wp => (lat wp, lng wp)) <$> Flight.waypoints flight;
     Polyline.color :=
       if String.eqb (status_string (Flight.status flight)) "active"
       then "blue" else "green";
     Polyline.weight := 3%float;
     Polyline.opacity := 0x1.6666666666666p-1%float |}.

(** [flights.filter((f) => f.status === "approved" || f.status === "active")
    .map(...)]. *)
Definition mapRoutes (flights : list Flight.t) : list Polyline.t :=
  routePolyline <$>
    filter (fun f => String.eqb (status_string (Flight.status f)) "approved"
                     || String.eqb (status_string (Flight.status f)) "active"
                     = true) flights.

(** The sample a marker or a telemetry card shows for one entry of
    [telemetryData]: [telemetryList[telemetryList.length - 1]], nothing for
    an empty list. *)
Definition latestSample (telemetryList : list TelemetryData.t)
  : option TelemetryData.t :=
  if (length telemetryList =? 0)%nat then None
  else telemetryList !! (length telemetryList - 1).

(** [Object.entries(telemetryData).map(...)]: the markers, in the order of
    the entries, each under its drone identifier; an entry whose list is
    empty gives [null], which renders nothing. *)
Definition liveMarkers (telemetryData : JSObject.t (list TelemetryData.t))
  : JSObject.t TelemetryData.t :=
  omap (fun entry =>
          (fun latest => (fst entry, latest)) <$> latestSample (snd entry))
    (JSObject.entries telemetryData).

(** ** The waypoint list of the flight form *)

(** The actions offered by a list of sibling elements. *)
Definition triggersAll (nodes : list Node) : list Action :=
  concat (triggers <$> nodes).

Section RenderForm.

(** [toFixed(6)] and the text of a number are the runtime's. *)
Variable toFixed6 : float -> string.
Variable indexText : nat -> string.

Definition renderWaypoint (index : nat) (waypoint : Waypoint) : Node :=
  Element "div" "flex justify-between items-center p-2 bg-gray-50 rounded" None
    [ Element "span" "text-sm" None
        [ Text "Точка "; Text (indexText (index + 1)); Text ": ";
          Text (toFixed6 (lat waypoint)); Text ","; Text " ";
          Text (toFixed6 (lng waypoint)) ];
      Element "button" "text-red-500 hover:text-red-700 text-sm"
        (Some (RemoveWaypoint index)) [ Text "Удалить" ] ].

(** [{flightForm.waypoints.length > 0 && (...)}]. *)
Definition renderWaypointList (flightForm : FlightForm.t) : list Node :=
  when (0 <? length (FlightForm.waypoints flightForm))%nat
    (Element "div" "space-y-1" None
       (Element "h4" "text-sm font-medium" None [ Text "Точки маршрута:" ]
        :: imap renderWaypoint (FlightForm.waypoints flightForm))).

End RenderForm.

(** ** The request body: [JSON.stringify] *)

#[local] Unset Elimination Schemes.
Inductive Json :=
| JNull
| JNumber (x : float)
| JString (s : string)
| JArray (items : list Json)
| JObject (fields : list (string * Json)).
#[local] Set Elimination Schemes.

(** A number that is [NaN] or infinite is written [null], and [-0] is
    written [0]. *)
Definition jsonNumber (x : float) : Json :=
  if PrimFloat.is_nan x || PrimFloat.is_infinity x then JNull
  else if PrimFloat.eqb x 0%float then JNumber 0%float
  else JNumber x.

Definition jsonWaypoint (w : Waypoint) : Json :=
  JObject [ ("lat", jsonNumber (lat w)); ("lng", jsonNumber (lng w)) ].

(** The value that [JSON.stringify] writes for the body of [createFlight]:
    the keys of [flightForm] in the order of their creation, which the
    spreads of the updaters keep. *)
Definition jsonBody (body : FlightForm.t) : Json :=
  JObject
    [ ("drone_id", JString (FlightForm.drone_id body));
      ("pilot_id", JString (FlightForm.pilot_id body));
      ("start_time", JString (FlightForm.start_time body));
      ("end_time", JString (FlightForm.end_time body));
      ("altitude", jsonNumber (FlightForm.altitude body));
      ("description", JString (FlightForm.description body));
      ("waypoints", JArray (jsonWaypoint <$> FlightForm.waypoints body)) ].

(** * Sample inputs *)

Definition oneWaypointForm : FlightForm.t :=
  {| FlightForm.drone_id := "drone-1"; FlightForm.pilot_id := "pilot-1";
     FlightForm.start_time := "2025-01-01T10:00";
     FlightForm.end_time := "2025-01-01T11:00";
     FlightForm.altitude := 50%float; FlightForm.description := "";
     FlightForm.waypoints := [ {| lat := 51.125%float; lng := 71.5%float |} ] |}.

Definition twoWaypointForm : FlightForm.t :=
  {| FlightForm.drone_id := "drone-1"; FlightForm.pilot_id := "pilot-1";
     FlightForm.start_time := "2025-01-01T10:00";
     FlightForm.end_time := "2025-01-01T11:00";
     FlightForm.altitude := 50%float; FlightForm.description := "";
     FlightForm.waypoints :=
       [ {| lat := 40%float; lng := 40%float |};
         {| lat := 41%float; lng := 41%float |} ] |}.

(** An approved flight as the registry describes it: no violation, here
    carried as an empty array. *)
Definition approvedNoViolations : Flight.t :=
  {| Flight.id := "flight-1"; Flight.drone_id := "drone-1";
     Flight.pilot_id := "pilot-1";
     Flight.start_time := "2025-01-01T10:00";
     Flight.end_time := "2025-01-01T11:00";
     Flight.altitude := 50%float;
     Flight.waypoints :=
       [ {| lat := 40%float; lng := 40%float |};
         {| lat := 41%float; lng := 41%float |} ];
     Flight.description := None; Flight.status := approved;
     Flight.created_at := "2025-01-01T09:00";
     Flight.violations := Some [] |}.

(** A runtime [parseFloat] restricted to the three texts the examples type. *)
Definition parseFloatSample (text : string) : float :=
  if String.eqb text "0" then 0%float
  else if String.eqb text "51.5" then 51.5%float
  else if String.eqb text "71.25" then 71.25%float
  else nan.

(** The [n]-th sample of drone [d]; the timestamp carries [n]. *)
Definition sample (d : string) (n : nat) : WsMessage.t :=
  {| WsMessage.type := "telemetry";
     WsMessage.data :=
       {| TelemetryData.drone_id := d;
          TelemetryData.lat := 51.5%float; TelemetryData.lng := 71.25%float;
          TelemetryData.altitude := 50%float; TelemetryData.speed := 10%float;
          TelemetryData.battery := 90%float;
          TelemetryData.timestamp := String (Ascii.ascii_of_nat n) "" |} |}.

(** The two examples of the design: a route far from the zone, and a route
    whose only segment crosses it. *)
Definition farZone : GeofenceEngine.RestrictedZone :=
  {| GeofenceEngine.name := "far"; GeofenceEngine.north := 52;
     GeofenceEngine.south := 51; GeofenceEngine.east := 72;
     GeofenceEngine.west := 71 |}.

Definition farRoute : list GeofenceEngine.Waypoint :=
  [ {| GeofenceEngine.lat := 40; GeofenceEngine.lng := 40 |};
    {| GeofenceEngine.lat := 41; GeofenceEngine.lng := 41 |} ].

Definition crossedZone : GeofenceEngine.RestrictedZone :=
  {| GeofenceEngine.name := "crossed"; GeofenceEngine.north := 51.2;
     GeofenceEngine.south := 51.1; GeofenceEngine.east := 71.5;
     GeofenceEngine.west := 71.4 |}.

Definition crossingRoute : list GeofenceEngine.Waypoint :=
  [ {| GeofenceEngine.lat := 51.0; GeofenceEngine.lng := 71.35 |};
    {| GeofenceEngine.lat := 51.3; GeofenceEngine.lng := 71.55 |} ].

Definition sampleConfig : Core.Config :=
  {| Core.zones := [crossedZone];
     Core.drones := {[ "drone-1" ]}; Core.pilots := {[ "pilot-1" ]};
     Core.min_altitude := 1; Core.max_altitude := 120 |}.

Definition samplePlan (route : list GeofenceEngine.Waypoint)
  : Core.FlightPlan :=
  {| Core.drone := "drone-1"; Core.pilot := "pilot-1";
     Core.start_time := 10; Core.end_time := 20; Core.altitude := 50;
     Core.route := route; Core.description := None |}.

(** A page state and three behaviours of the server for [loadData]. *)
Definition samplePilot : Pilot.t :=
  {| Pilot.id := "pilot-1"; Pilot.name := "A. Pilot";
     Pilot.phone := "+7 700 000 00 00"; Pilot.email := "pilot@example.org";
     Pilot.created_at := "2025-01-01T08:00" |}.

Definition samplePageState : PageState.t :=
  {| PageState.pilots := [samplePilot]; PageState.drones := [];
     PageState.flights := [approvedNoViolations];
     PageState.restrictedZones := []; PageState.isLoading := false |}.

Definition flightsRejected : LoadResponses.t :=
  {| LoadResponses.pilotsRes := FetchResolved (Some []);
     LoadResponses.dronesRes := FetchResolved (Some []);
     LoadResponses.flightsRes := FetchRejected;
     LoadResponses.zonesRes := FetchResolved (Some []) |}.

Definition allEmpty : LoadResponses.t :=
  {| LoadResponses.pilotsRes := FetchResolved (Some []);
     LoadResponses.dronesRes := FetchResolved (Some []);
     LoadResponses.flightsRes := FetchResolved (Some []);
     LoadResponses.zonesRes := FetchResolved (Some []) |}.

Definition dronesUnparsed : LoadResponses.t :=
  {| LoadResponses.pilotsRes := FetchResolved (Some []);
     LoadResponses.dronesRes := FetchResolved None;
     LoadResponses.flightsRes := FetchResolved (Some []);
     LoadResponses.zonesRes := FetchResolved (Some []) |}.

(** Two clicks on the add-waypoint button with acceptable coordinates. *)
Definition twoClicks : list FormEvent :=
  [ ClickAddWaypoint "51.5" "71.25"; ClickAddWaypoint "51.5" "71.25" ].

(** The telemetry state once fifty samples of one drone are stored. *)
Definition fullWindow : JSObject.t (list TelemetryData.t) :=
  [ ("d1", WsMessage.data ∘ sample "d1" <$> seq 0 50) ].

(** The telemetry state after samples of two drones. *)
Definition twoDrones : JSObject.t (list TelemetryData.t) :=
  [ ("d2", [WsMessage.data (sample "d2" 65); WsMessage.data (sample "d2" 67)]);
    ("d1", [WsMessage.data (sample "d1" 66)]) ].

(** The form after the altitude input was cleared: [parseFloat("")] is
    [NaN]. *)
Definition nanAltitudeForm : FlightForm.t :=
  {| FlightForm.drone_id := "drone-1"; FlightForm.pilot_id := "pilot-1";
     FlightForm.start_time := "2025-01-01T10:00";
     FlightForm.end_time := "2025-01-01T11:00";
     FlightForm.altitude := nan; FlightForm.description := "";
     FlightForm.waypoints :=
       [ {| lat := 40%float; lng := 40%float |};
         {| lat := 41%float; lng := 41%float |} ] |}.

(** * Properties of the dashboard *)

(** ** Status presentation *)

Lemma getStatusText_known (s : FlightStatus) :
  getStatusText (status_string s) ≠ "".
Proof. by destruct s. Qed.

Lemma status_string_inj (a b : FlightStatus) :
  status_string a = status_string b → a = b.
Proof. by destruct a, b. Qed.

Lemma status_eqb_eq (a b : FlightStatus) : status_eqb a b = true ↔ a = b.
Proof.
  unfold status_eqb. rewrite String.eqb_eq. split.
  - apply status_string_inj.
  - by intros ->.
Qed.

(** C10: [getStatusText] and [getStatusColor] are total over arbitrary
    status strings; on an input outside the five known statuses
    [getStatusText] returns the input unchanged and [getStatusColor] returns
    ["text-yellow-600"], the class it also returns for ["pending"]. *)
Theorem status_presentation_unknown (status : string) :
  status ∉ ["pending"; "approved"; "rejected"; "active"; "completed"] →
  getStatusText status = status
  ∧ getStatusColor status = "text-yellow-600"
  ∧ getStatusColor "pending" = "text-yellow-600".
Proof.
  intros Hout.
  assert (Hne : ∀ k, k ∈ ["pending"; "approved"; "rejected"; "active";
                          "completed"] → String.eqb status k = false).
  { intros k Hk. apply String.eqb_neq. intros ->. by apply Hout. }
  unfold getStatusText, getStatusColor.
  rewrite !Hne by (repeat constructor). done.
Qed.

Lemma status_presentation_unknown_witness :
  getStatusText "cancelled" = "cancelled"
  ∧ getStatusColor "cancelled" = "text-yellow-600"
  ∧ getStatusColor "pending" = "text-yellow-600".
Proof.
  apply (status_presentation_unknown "cancelled").
  apply (bool_decide_unpack _). vm_compute. exact I.
Defined.

(** ** Removing a waypoint *)

Lemma filter_from_keep {A : Type} (index : Z) (k : nat) (l : list A) :
  (index < Z.of_nat k)%Z →
  JS.filter_from (fun _ i => negb (Z.eqb (Z.of_nat i) index)) k l = l.
Proof.
  revert k. induction l as [|x l IH]; intros k Hk; simpl; [done|].
  destruct (Z.eqb_spec (Z.of_nat k) index) as [Heq|_]; [lia|].
  simpl. f_equal. apply IH. lia.
Qed.

Lemma filter_from_spec {A : Type} (index : Z) (k : nat) (l : list A) :
  (Z.of_nat k ≤ index)%Z →
  JS.filter_from (fun _ i => negb (Z.eqb (Z.of_nat i) index)) k l
  = take (Z.to_nat index - k) l ++ drop (S (Z.to_nat index - k)) l.
Proof.
  revert k. induction l as [|x l IH]; intros k Hk; simpl.
  - by destruct (Z.to_nat index - k).
  - destruct (Z.eqb_spec (Z.of_nat k) index) as [Heq|Hne]; simpl.
    + replace (Z.to_nat index - k) with 0 by lia. simpl.
      rewrite drop_0. apply filter_from_keep. lia.
    + rewrite IH by lia.
      replace (Z.to_nat index - k) with (S (Z.to_nat index - S k)) by lia.
      done.
Qed.

(** C9: [removeWaypoint i] removes exactly the element at position [i] and
    keeps the order of the others; an index out of range leaves the list
    unchanged; the other fields of the form are unchanged in every case. *)
Theorem removeWaypoint_spec (index : Z) (prev : FlightForm.t) :
  FlightForm.drone_id (removeWaypoint index prev) = FlightForm.drone_id prev
  ∧ FlightForm.pilot_id (removeWaypoint index prev) = FlightForm.pilot_id prev
  ∧ FlightForm.start_time (removeWaypoint index prev)
    = FlightForm.start_time prev
  ∧ FlightForm.end_time (removeWaypoint index prev) = FlightForm.end_time prev
  ∧ FlightForm.altitude (removeWaypoint index prev) = FlightForm.altitude prev
  ∧ FlightForm.description (removeWaypoint index prev)
    = FlightForm.description prev
  ∧ ((0 ≤ index < Z.of_nat (length (FlightForm.waypoints prev)))%Z →
     FlightForm.waypoints (removeWaypoint index prev)
     = take (Z.to_nat index) (FlightForm.waypoints prev)
       ++ drop (S (Z.to_nat index)) (FlightForm.waypoints prev))
  ∧ (¬ (0 ≤ index < Z.of_nat (length (FlightForm.waypoints prev)))%Z →
     FlightForm.waypoints (removeWaypoint index prev)
     = FlightForm.waypoints prev).
Proof.
  repeat split; simpl; unfold JS.filter_index.
  - intros [Hlo _]. rewrite filter_from_spec by lia.
    by rewrite Nat.sub_0_r.
  - intros Hout. destruct (decide (index < 0)%Z) as [Hneg|Hpos].
    + apply filter_from_keep. lia.
    + rewrite filter_from_spec by lia. rewrite Nat.sub_0_r.
      rewrite take_ge, drop_ge by lia. by rewrite app_nil_r.
Qed.

Example removeWaypoint_middle :
  FlightForm.waypoints
    (removeWaypoint 1
       (addWaypoint 3 30 (addWaypoint 2 20 (addWaypoint 1 10 FlightForm.initial))))
  = [ {| lat := 1; lng := 10 |}; {| lat := 3; lng := 30 |} ].
Proof. reflexivity. Qed.

Example removeWaypoint_out_of_range :
  removeWaypoint 5 (addWaypoint 2 20 (addWaypoint 1 10 FlightForm.initial))
  = addWaypoint 2 20 (addWaypoint 1 10 FlightForm.initial)
  ∧ removeWaypoint (-1) (addWaypoint 2 20 (addWaypoint 1 10 FlightForm.initial))
    = addWaypoint 2 20 (addWaypoint 1 10 FlightForm.initial).
Proof. split; reflexivity. Qed.

(** ** Submitting a flight *)

(** C4: a submission with fewer than two waypoints is refused by
    [createFlight] before anything is sent: the operator is alerted, the form
    is kept, and no flight-creation request is among the effects, whatever
    the server would have answered. *)
Theorem createFlight_too_few_waypoints
    (toISOString : string → option string) (flightForm : FlightForm.t)
    (server : FlightForm.t → FetchResult) :
  length (FlightForm.waypoints flightForm) < 2 →
  createFlight toISOString flightForm server
  = (flightForm,
     [PreventDefault; Alert "Необходимо указать минимум 2 точки маршрута"])
  ∧ ∀ url body,
      FetchPost url body ∉ snd (createFlight toISOString flightForm server).
Proof.
  intros Hlen. unfold createFlight.
  destruct (Nat.ltb_spec (length (FlightForm.waypoints flightForm)) 2);
    [|lia].
  split; [done|]. intros url body Hin. simpl in Hin.
  apply elem_of_cons in Hin as [Hin|Hin]; [discriminate|].
  apply elem_of_cons in Hin as [Hin|Hin]; [discriminate|].
  by apply elem_of_nil in Hin.
Qed.

Lemma createFlight_too_few_waypoints_witness :
  createFlight Some oneWaypointForm (fun _ => NetworkError)
  = (oneWaypointForm,
     [PreventDefault; Alert "Необходимо указать минимум 2 точки маршрута"])
  ∧ ∀ url body,
      FetchPost url body
      ∉ snd (createFlight Some oneWaypointForm (fun _ => NetworkError)).
Proof.
  apply (createFlight_too_few_waypoints Some oneWaypointForm
           (fun _ => NetworkError)).
  simpl. lia.
Defined.

(** What the report says is decided by the presence of the [violations]
    field alone. *)
Lemma creationReport_approved (newFlight : Flight.t) :
  creationReport newFlight = "Полет одобрен!"
  ↔ Flight.violations newFlight = None.
Proof.
  unfold creationReport. destruct (Flight.violations newFlight); split;
    try done; intros H; discriminate H.
Qed.

(** C2: at a successful response that carries an approved flight with an
    empty [violations] array, [createFlight] tells the operator that the
    flight was rejected, with an empty list of zones: an array is truthy
    even when it is empty. *)
Theorem createFlight_empty_violations_reported_rejected :
  Flight.status approvedNoViolations = approved
  ∧ Flight.violations approvedNoViolations = Some []
  ∧ createFlight Some twoWaypointForm
      (fun _ => Response true (Some approvedNoViolations))
    = (FlightForm.initial,
       [ PreventDefault;
         FetchPost "http://localhost:8000/api/flights/" (Some twoWaypointForm);
         Alert "Полет отклонен! Нарушение запретных зон: ";
         LoadData ]).
Proof. repeat split. Qed.

(** ** The simulation trigger *)

Lemma renderFlight_triggers
    (numberText : float → string) (lengthText : nat → string)
    (toLocaleString : string → string)
    (drones : list Drone.t) (pilots : list Pilot.t) (flight : Flight.t) :
  triggers (renderFlight numberText lengthText toLocaleString drones pilots
              flight)
  = if status_eqb (Flight.status flight) approved
    then [SimulateFlight (Flight.id flight)] else [].
Proof.
  unfold renderFlight, status_eqb.
  destruct (Flight.description flight) as [d|];
    [destruct (String.eqb d "")|];
    destruct (Flight.status flight); reflexivity.
Qed.

Lemma simulate_elem_of_offer (offered : bool) (this flightId : string) :
  SimulateFlight flightId ∈ (if offered then [SimulateFlight this] else [])
  ↔ flightId = this ∧ offered = true.
Proof.
  destruct offered.
  - rewrite list_elem_of_singleton. split; [intros [= ->]|intros [-> _]]; done.
  - split; [intros H; by apply elem_of_nil in H | intros [_ H]; discriminate].
Qed.

(** C7: the entry of a flight in the flight list offers a control that calls
    [simulateFlight] exactly when the flight is [approved], and then with
    that flight's identifier; in any other status the entry offers no
    simulation trigger at all. *)
Theorem simulate_offered_iff_approved
    (numberText : float → string) (lengthText : nat → string)
    (toLocaleString : string → string)
    (drones : list Drone.t) (pilots : list Pilot.t) (flight : Flight.t)
    (flightId : string) :
  SimulateFlight flightId
  ∈ triggers (renderFlight numberText lengthText toLocaleString drones pilots
                flight)
  ↔ flightId = Flight.id flight ∧ Flight.status flight = approved.
Proof.
  rewrite renderFlight_triggers, simulate_elem_of_offer.
  by rewrite status_eqb_eq.
Qed.

(** Over the whole list: the offered simulations are those of the approved
    flights. *)
Lemma renderFlightList_triggers
    (numberText : float → string) (lengthText : nat → string)
    (toLocaleString : string → string)
    (drones : list Drone.t) (pilots : list Pilot.t) (flights : list Flight.t)
    (flightId : string) :
  (∃ n, n ∈ renderFlightList numberText lengthText toLocaleString drones
              pilots flights
        ∧ SimulateFlight flightId ∈ triggers n)
  ↔ ∃ f, f ∈ flights ∧ Flight.id f = flightId ∧ Flight.status f = approved.
Proof.
  unfold renderFlightList. split.
  - intros (n & Hn & Ht). apply list_elem_of_fmap in Hn as (f & -> & Hf).
    rewrite renderFlight_triggers in Ht.
    apply simulate_elem_of_offer in Ht as [-> Hs].
    apply status_eqb_eq in Hs. eauto.
  - intros (f & Hf & <- & Hs). eexists. split.
    + apply list_elem_of_fmap. eauto.
    + by rewrite renderFlight_triggers, simulate_elem_of_offer, status_eqb_eq.
Qed.

(** ** Adding a waypoint *)

Lemma truthy_false_iff (x : float) :
  JS.truthy x = false
  ↔ PrimFloat.is_nan x = true ∨ PrimFloat.eqb x 0%float = true.
Proof.
  unfold JS.truthy.
  destruct (PrimFloat.is_nan x), (PrimFloat.eqb x 0%float); simpl;
    split; auto; intros [H|H]; discriminate.
Qed.

Lemma truthy_true_iff (x : float) :
  JS.truthy x = true
  ↔ PrimFloat.is_nan x = false ∧ PrimFloat.eqb x 0%float = false.
Proof.
  unfold JS.truthy.
  destruct (PrimFloat.is_nan x), (PrimFloat.eqb x 0%float); simpl;
    split; auto; intros [H1 H2]; discriminate.
Qed.

Lemma filter_from_elem_of {A : Type} (f : A → nat → bool) (k : nat)
    (l : list A) (x : A) :
  x ∈ JS.filter_from f k l → x ∈ l.
Proof.
  revert k. induction l as [|y l IH]; intros k; simpl; [done|].
  destruct (f y k).
  - rewrite !elem_of_cons. intros [->|H]; [by left | right; eauto].
  - rewrite elem_of_cons. eauto.
Qed.

Lemma createFlight_form (toISOString : string → option string)
    (flightForm : FlightForm.t) (server : FlightForm.t → FetchResult) :
  fst (createFlight toISOString flightForm server) = flightForm
  ∨ fst (createFlight toISOString flightForm server) = FlightForm.initial.
Proof.
  unfold createFlight.
  destruct (_ <? _)%nat; [by left|].
  destruct (toISOString _); [|by left].
  destruct (toISOString _); [|by left].
  destruct (server _) as [|[] []]; simpl; auto.
Qed.

Lemma onAddWaypointClick_falsy (parseFloat : string → float)
    (latInput lngInput : string) (flightForm : FlightForm.t) :
  JS.truthy (parseFloat latInput) = false
  ∨ JS.truthy (parseFloat lngInput) = false →
  onAddWaypointClick parseFloat latInput lngInput flightForm
  = (flightForm, (latInput, lngInput)).
Proof.
  unfold onAddWaypointClick. intros [-> | ->]; [done|].
  by rewrite andb_false_r.
Qed.

Lemma onAddWaypointClick_truthy (parseFloat : string → float)
    (latInput lngInput : string) (flightForm : FlightForm.t) :
  JS.truthy (parseFloat latInput) = true →
  JS.truthy (parseFloat lngInput) = true →
  onAddWaypointClick parseFloat latInput lngInput flightForm
  = (addWaypoint (parseFloat latInput) (parseFloat lngInput) flightForm,
     ("", "")).
Proof. unfold onAddWaypointClick. by intros -> ->. Qed.

Lemma formStep_truthy (parseFloat : string → float)
    (toISOString : string → option string)
    (prev : FlightForm.t) (e : FormEvent) :
  Forall truthyWaypoint (FlightForm.waypoints prev) →
  Forall truthyWaypoint
    (FlightForm.waypoints (formStep parseFloat toISOString prev e)).
Proof.
  intros Hprev. destruct e; simpl; try done.
  - unfold onAddWaypointClick.
    destruct (JS.truthy (parseFloat latInput)) eqn:Hlat;
      destruct (JS.truthy (parseFloat lngInput)) eqn:Hlng; simpl; try done.
    apply Forall_app. split; [done|]. by repeat constructor.
  - rewrite Forall_forall in *. intros w Hw.
    eapply Hprev, filter_from_elem_of, Hw.
  - destruct (createFlight_form toISOString prev server) as [-> | ->];
      [done | constructor].
Qed.

Lemma formRun_truthy (parseFloat : string → float)
    (toISOString : string → option string) (events : list FormEvent) :
  Forall truthyWaypoint
    (FlightForm.waypoints (formRun parseFloat toISOString events)).
Proof.
  unfold formRun. induction events as [|e events IH] using rev_ind.
  - constructor.
  - rewrite foldl_app. simpl. by apply formStep_truthy.
Qed.

(** C8: a click on the add-waypoint button appends a waypoint only when both
    parsed coordinates are truthy; when the parsed latitude or longitude is
    [0] or [NaN] the form is left as it was, so no sequence of form events
    ever yields a waypoint whose latitude or longitude is [0]. *)
Theorem addWaypoint_click_needs_truthy_coordinates
    (parseFloat : string → float) (toISOString : string → option string) :
  (∀ latInput lngInput flightForm,
     FlightForm.waypoints
       (fst (onAddWaypointClick parseFloat latInput lngInput flightForm))
     ≠ FlightForm.waypoints flightForm →
     JS.truthy (parseFloat latInput) = true
     ∧ JS.truthy (parseFloat lngInput) = true)
  ∧ (∀ latInput lngInput flightForm,
       PrimFloat.eqb (parseFloat latInput) 0%float = true
       ∨ PrimFloat.is_nan (parseFloat latInput) = true
       ∨ PrimFloat.eqb (parseFloat lngInput) 0%float = true
       ∨ PrimFloat.is_nan (parseFloat lngInput) = true →
       onAddWaypointClick parseFloat latInput lngInput flightForm
       = (flightForm, (latInput, lngInput)))
  ∧ (∀ events w,
       w ∈ FlightForm.waypoints (formRun parseFloat toISOString events) →
       PrimFloat.eqb (lat w) 0%float = false
       ∧ PrimFloat.eqb (lng w) 0%float = false).
Proof.
  split; [|split].
  - intros latInput lngInput flightForm Hchanged.
    destruct (JS.truthy (parseFloat latInput)) eqn:Hlat;
      destruct (JS.truthy (parseFloat lngInput)) eqn:Hlng; try done;
      exfalso; apply Hchanged;
      rewrite onAddWaypointClick_falsy; auto.
  - intros latInput lngInput flightForm Hzero.
    apply onAddWaypointClick_falsy.
    rewrite !truthy_false_iff. tauto.
  - intros events w Hw.
    pose proof (formRun_truthy parseFloat toISOString events) as Hall.
    rewrite Forall_forall in Hall. destruct (Hall w Hw) as [Hlat Hlng].
    apply truthy_true_iff in Hlat, Hlng. tauto.
Qed.

Example addWaypoint_click_equator :
  onAddWaypointClick parseFloatSample "0" "71.25" twoWaypointForm
  = (twoWaypointForm, ("0", "71.25")).
Proof. reflexivity. Qed.

Example addWaypoint_click_accepted :
  FlightForm.waypoints
    (fst (onAddWaypointClick parseFloatSample "51.5" "71.25"
            FlightForm.initial))
  = [ {| lat := 51.5%float; lng := 71.25%float |} ].
Proof. reflexivity. Qed.

(** ** Plain objects *)

Lemma own_app {V : Type} (l1 l2 : JSObject.t V) (key : string) :
  JSObject.own (l1 ++ l2) key
  = match JSObject.own l1 key with
    | Some v => Some v
    | None => JSObject.own l2 key
    end.
Proof.
  induction l1 as [|[k v] l1 IH]; simpl; [done|].
  by destruct (String.eqb k key).
Qed.

Lemma own_insertIndexed {V : Type} (i : N) (entry : string * V)
    (sorted : list (string * V)) (key : string) :
  JSObject.arrayIndex (fst entry) = Some i →
  JSObject.own (JSObject.insertIndexed i entry sorted) key
  = JSObject.own (entry :: sorted) key.
Proof.
  intros Hi. destruct entry as [k v]. simpl in Hi.
  induction sorted as [|[k' v'] sorted IH]; simpl; [done|].
  destruct (JSObject.arrayIndex k') as [j|] eqn:Hj; [|done].
  destruct (N.ltb_spec j i) as [Hlt|Hge]; [|done].
  simpl. rewrite IH. simpl.
  destruct (String.eqb_spec k key) as [->|Hk];
    destruct (String.eqb_spec k' key) as [->|Hk']; try done.
  rewrite Hi in Hj. injection Hj as ->. lia.
Qed.

Lemma own_indexed {V : Type} (obj : JSObject.t V) (key : string) :
  JSObject.own (JSObject.indexed obj) key
  = match JSObject.arrayIndex key with
    | Some _ => JSObject.own obj key
    | None => None
    end.
Proof.
  induction obj as [|[k v] obj IH]; simpl; [by destruct (JSObject.arrayIndex key)|].
  destruct (JSObject.arrayIndex k) as [i|] eqn:Hi.
  - rewrite (own_insertIndexed i) by done. simpl. rewrite IH.
    destruct (String.eqb_spec k key) as [->|Hk]; [by rewrite Hi | done].
  - rewrite IH. destruct (String.eqb_spec k key) as [->|Hk]; [by rewrite Hi | done].
Qed.

Lemma own_named {V : Type} (obj : JSObject.t V) (key : string) :
  JSObject.own (JSObject.named obj) key
  = match JSObject.arrayIndex key with
    | Some _ => None
    | None => JSObject.own obj key
    end.
Proof.
  induction obj as [|[k v] obj IH]; simpl; [by destruct (JSObject.arrayIndex key)|].
  destruct (JSObject.arrayIndex k) as [i|] eqn:Hi; simpl; rewrite IH;
    destruct (String.eqb_spec k key) as [->|Hk]; try done; by rewrite Hi.
Qed.

(** Enumerating the own properties, and so copying them with a spread,
    changes their order only. *)
Lemma own_entries {V : Type} (obj : JSObject.t V) (key : string) :
  JSObject.own (JSObject.entries obj) key = JSObject.own obj key.
Proof.
  unfold JSObject.entries. rewrite own_app, own_indexed, own_named.
  destruct (JSObject.arrayIndex key); [by destruct (JSObject.own obj key) | done].
Qed.

Lemma own_define {V : Type} (key : string) (value : V) (obj : JSObject.t V)
    (d : string) :
  JSObject.own (JSObject.define key value obj) d
  = if String.eqb key d then Some value else JSObject.own obj d.
Proof.
  induction obj as [|[k v] obj IH]; simpl; [done|].
  destruct (String.eqb_spec k key) as [->|Hk]; simpl.
  - by destruct (String.eqb key d).
  - rewrite IH. destruct (String.eqb_spec k d) as [->|Hd]; [|done].
    by destruct (String.eqb_spec key d) as [->|].
Qed.

(** ** The telemetry window *)

Lemma slice_last_length {A : Type} (n : nat) (l : list A) :
  length (JS.slice_last n l) = length l `min` n.
Proof. unfold JS.slice_last. rewrite length_drop. lia. Qed.

Lemma slice_last_short {A : Type} (n : nat) (l : list A) :
  length l ≤ n → JS.slice_last n l = l.
Proof.
  intros H. unfold JS.slice_last.
  by replace (length l - n) with 0 by lia.
Qed.

Lemma slice_last_snoc {A : Type} (n : nat) (l : list A) (x : A) :
  0 < n →
  JS.slice_last n (JS.slice_last n l ++ [x]) = JS.slice_last n (l ++ [x]).
Proof.
  intros Hn. destruct (decide (length l ≤ n)) as [Hle|Hgt].
  - by rewrite (slice_last_short n l).
  - unfold JS.slice_last.
    rewrite !length_app, length_drop. simpl.
    replace (length l - (length l - n) + 1 - n) with 1 by lia.
    rewrite !drop_app_le by (rewrite ?length_drop; lia).
    rewrite drop_drop. do 2 f_equal. lia.
Qed.

Lemma slice_last_last {A : Type} (n : nat) (l : list A) (x : A) :
  0 < n → last (JS.slice_last n (l ++ [x])) = Some x.
Proof.
  intros Hn. unfold JS.slice_last.
  rewrite length_app. simpl.
  rewrite drop_app_le by lia. apply last_snoc.
Qed.

Lemma onmessage_own (message : WsMessage.t)
    (prev next : JSObject.t (list TelemetryData.t)) (d : string) :
  onmessage message prev = Some next →
  JSObject.own next d = storedAfter message (JSObject.own prev d) d.
Proof.
  unfold onmessage, storedAfter, JSObject.get, JSObject.spread.
  destruct (String.eqb (WsMessage.type message) "telemetry"); simpl;
    [|by intros [= ->]].
  destruct (JSObject.own prev (TelemetryData.drone_id (WsMessage.data message)))
    as [stored|] eqn:Hown;
    [|case_bool_decide; [discriminate|]];
    intros [= <-]; rewrite own_define, own_entries;
    destruct (String.eqb_spec
                (TelemetryData.drone_id (WsMessage.data message)) d)
      as [<-|_]; try done; by rewrite Hown.
Qed.

Lemma onmessage_None (message : WsMessage.t)
    (prev : JSObject.t (list TelemetryData.t)) :
  onmessage message prev = None
  ↔ WsMessage.type message = "telemetry"
    ∧ JSObject.own prev (TelemetryData.drone_id (WsMessage.data message))
      = None
    ∧ TelemetryData.drone_id (WsMessage.data message)
      ∈ JSObject.prototypeKeys.
Proof.
  unfold onmessage, JSObject.get.
  destruct (String.eqb_spec (WsMessage.type message) "telemetry") as [Ht|Ht];
    [|split; [discriminate | by intros [? _]]].
  destruct (JSObject.own prev _) as [stored|];
    [split; [discriminate | by intros (_ & ? & _)]|].
  case_bool_decide; split; try done; try discriminate.
  by intros (_ & _ & ?).
Qed.

Lemma receive_snoc (messages : list WsMessage.t) (m : WsMessage.t) :
  receive (messages ++ [m]) = receive messages ≫= onmessage m.
Proof. unfold receive. by rewrite foldl_app. Qed.

Lemma received_for_snoc (d : string) (messages : list WsMessage.t)
    (m : WsMessage.t) :
  received_for d (messages ++ [m])
  = received_for d messages
    ++ (if String.eqb (WsMessage.type m) "telemetry"
        then if decide (TelemetryData.drone_id (WsMessage.data m) = d)
             then [WsMessage.data m] else []
        else []).
Proof.
  unfold received_for. rewrite filter_app, fmap_app, filter_app. f_equal.
  destruct (String.eqb_spec (WsMessage.type m) "telemetry") as [Ht|Ht].
  - rewrite filter_cons_True by done. simpl.
    destruct (decide (TelemetryData.drone_id (WsMessage.data m) = d)).
    + by rewrite filter_cons_True.
    + by rewrite filter_cons_False.
  - by rewrite filter_cons_False.
Qed.

Lemma receive_lookup (d : string) (messages : list WsMessage.t)
    (telemetryData : JSObject.t (list TelemetryData.t)) :
  receive messages = Some telemetryData →
  default [] (JSObject.own telemetryData d)
  = JS.slice_last 50 (received_for d messages).
Proof.
  revert telemetryData.
  induction messages as [|m messages IH] using rev_ind; intros st.
  - by intros [= <-].
  - rewrite receive_snoc, received_for_snoc.
    destruct (receive messages) as [st0|]; [|discriminate]. simpl.
    intros Hm. rewrite (onmessage_own m st0 st d Hm). unfold storedAfter.
    specialize (IH st0 eq_refl).
    destruct (String.eqb (WsMessage.type m) "telemetry"); simpl;
      [|by rewrite app_nil_r].
    destruct (String.eqb_spec (TelemetryData.drone_id (WsMessage.data m)) d)
      as [Hd|Hd].
    + rewrite decide_True by done. simpl. rewrite IH.
      apply slice_last_snoc. lia.
    + rewrite decide_False by done. by rewrite app_nil_r.
Qed.

(** A page that starts from [{}] never comes to own a key that names a
    property of [Object.prototype]. *)
Lemma receive_own_ordinary (messages : list WsMessage.t)
    (telemetryData : JSObject.t (list TelemetryData.t)) (key : string) :
  receive messages = Some telemetryData →
  key ∈ JSObject.prototypeKeys →
  JSObject.own telemetryData key = None.
Proof.
  revert telemetryData.
  induction messages as [|m messages IH] using rev_ind; intros st.
  - by intros [= <-].
  - rewrite receive_snoc.
    destruct (receive messages) as [st0|]; [|discriminate]. simpl.
    intros Hm Hkey. rewrite (onmessage_own m st0 st key Hm).
    specialize (IH st0 eq_refl Hkey). unfold storedAfter.
    destruct (String.eqb_spec (WsMessage.type m) "telemetry") as [Ht|Ht];
      [|done].
    destruct (String.eqb_spec (TelemetryData.drone_id (WsMessage.data m)) key)
      as [Hd|Hd]; [|done].
    exfalso. assert (onmessage m st0 = None); [|congruence].
    apply onmessage_None. by rewrite Hd.
Qed.

(** The page survives exactly the sequences of ordinary identifiers. *)
Lemma receive_is_Some (messages : list WsMessage.t) :
  is_Some (receive messages) ↔ ordinaryIds messages.
Proof.
  unfold ordinaryIds.
  induction messages as [|m messages IH] using rev_ind.
  - split; [intros _ m Hm; by apply elem_of_nil in Hm | by eexists].
  - rewrite receive_snoc. split.
    + intros [st Hst].
      destruct (receive messages) as [st0|] eqn:Hst0; [|discriminate].
      simpl in Hst. intros m' Hm' Ht' Hproto.
      apply elem_of_app in Hm' as [Hm'|Hm'].
      * destruct IH as [IH _]. by apply (IH (ltac:(eauto)) m').
      * apply list_elem_of_singleton in Hm' as ->.
        assert (onmessage m st0 = None); [|congruence].
        apply onmessage_None. split; [done|]. split; [|done].
        by apply (receive_own_ordinary messages).
    + intros Hall. destruct IH as [_ IH].
      destruct IH as [st0 Hst0].
      { intros m' Hm'. apply Hall. apply elem_of_app. by left. }
      rewrite Hst0. simpl.
      destruct (onmessage m st0) as [st|] eqn:Hst; [by eexists|].
      apply onmessage_None in Hst as (Ht & _ & Hproto).
      exfalso. apply (Hall m); [|done|done].
      apply elem_of_app. right. by apply list_elem_of_singleton.
Qed.

(** For ordinary identifiers the list stored for a drone holds at most 50
    samples and is exactly the last [min n 50] of the [n] samples received
    for that drone, in arrival order. *)
Lemma telemetry_window (messages : list WsMessage.t) (d : string) :
  ordinaryIds messages →
  ∃ telemetryData,
    receive messages = Some telemetryData
    ∧ length (default [] (JSObject.own telemetryData d)) ≤ 50
    ∧ length (default [] (JSObject.own telemetryData d))
      = length (received_for d messages) `min` 50
    ∧ default [] (JSObject.own telemetryData d)
      = drop (length (received_for d messages)
              - length (received_for d messages) `min` 50)
          (received_for d messages).
Proof.
  intros Hordinary. apply receive_is_Some in Hordinary as [st Hst].
  exists st. split; [done|].
  rewrite (receive_lookup d messages st Hst), slice_last_length.
  split; [lia|]. split; [done|].
  unfold JS.slice_last. f_equal. lia.
Qed.

Example telemetry_window_sample :
  (fun st => TelemetryData.timestamp <$> default [] (JSObject.own st "d1"))
    <$> receive (sample "d1" <$> seq 65 60)
  = Some (TelemetryData.timestamp ∘ WsMessage.data ∘ sample "d1"
            <$> seq 75 50).
Proof. vm_compute. reflexivity. Qed.

(** C5: a telemetry message whose [drone_id] names a property that every
    object inherits is received like any other, but its sample is not
    stored: the updater throws on it, alone or in the middle of a
    sequence, and the page is lost. *)
Theorem telemetry_inherited_key_throws :
  received_for "constructor" [sample "constructor" 65]
  = [WsMessage.data (sample "constructor" 65)]
  ∧ onmessage (sample "constructor" 65) [] = None
  ∧ receive [sample "constructor" 65] = None
  ∧ receive [sample "d1" 65; sample "toString" 66; sample "d1" 67] = None.
Proof. repeat split. Qed.

(** ** One message *)

(** Once a drone's window is full, a further sample does not leave the old
    list followed by the sample: the oldest entry is gone. *)
Lemma onmessage_full_window_not_append :
  ¬ appendsSample (sample "d1" 50) fullWindow.
Proof.
  intros (next & Hnext & Hown). vm_compute in Hnext.
  injection Hnext as <-.
  apply (f_equal (fmap (M := option) length)) in Hown.
  vm_compute in Hown. discriminate Hown.
Qed.

(** C6 (amended): a message changes the telemetry state only when its type
    is ["telemetry"]; when the sample's [drone_id] is not the name of a
    property inherited from [Object.prototype], the handler then stores,
    under that [drone_id], the previous list followed by the sample, cut to
    its last 50 entries: the sample is the last entry, the list is exactly
    the previous one followed by the sample while fewer than 50 were stored,
    and the list of every other drone is unchanged. *)
Theorem onmessage_frame (message : WsMessage.t)
    (prev : JSObject.t (list TelemetryData.t)) :
  (WsMessage.type message ≠ "telemetry" → onmessage message prev = Some prev)
  ∧ (WsMessage.type message = "telemetry" →
     TelemetryData.drone_id (WsMessage.data message)
     ∉ JSObject.prototypeKeys →
     ∃ next stored,
       onmessage message prev = Some next
       ∧ JSObject.own next (TelemetryData.drone_id (WsMessage.data message))
         = Some stored
       ∧ stored
         = JS.slice_last 50
             (default []
                (JSObject.own prev
                   (TelemetryData.drone_id (WsMessage.data message)))
              ++ [WsMessage.data message])
       ∧ last stored = Some (WsMessage.data message)
       ∧ (length
            (default []
               (JSObject.own prev
                  (TelemetryData.drone_id (WsMessage.data message))))
          < 50 →
          appendsSample message prev)
       ∧ ∀ d, d ≠ TelemetryData.drone_id (WsMessage.data message) →
              JSObject.own next d = JSObject.own prev d).
Proof.
  split.
  - intros Ht. unfold onmessage.
    by destruct (String.eqb_spec (WsMessage.type message) "telemetry").
  - intros Ht Hordinary.
    destruct (onmessage message prev) as [next|] eqn:Hnext.
    2:{ apply onmessage_None in Hnext as (_ & _ & Hproto). done. }
    assert (Hown : ∀ d, JSObject.own next d
                        = storedAfter message (JSObject.own prev d) d)
      by (intros d; by apply onmessage_own).
    unfold storedAfter in Hown. rewrite Ht in Hown. simpl in Hown.
    eexists next, _. split; [done|]. split.
    { rewrite Hown. by rewrite String.eqb_refl. }
    split; [done|]. split; [apply slice_last_last; lia|]. split.
    + intros Hlen. exists next. split; [done|].
      rewrite Hown, String.eqb_refl. f_equal.
      apply slice_last_short. rewrite length_app. simpl. lia.
    + intros d Hd. rewrite Hown.
      by destruct (String.eqb_spec
                     (TelemetryData.drone_id (WsMessage.data message)) d)
        as [<-|_].
Qed.

Example receive_full_window :
  receive (sample "d1" <$> seq 0 50) = Some fullWindow.
Proof. vm_compute. reflexivity. Qed.

Example onmessage_full_window_drops_oldest :
  (fun st => TelemetryData.timestamp <$> default [] (JSObject.own st "d1"))
    <$> (receive (sample "d1" <$> seq 65 50) ≫= onmessage (sample "d1" 115))
  = Some (TelemetryData.timestamp ∘ WsMessage.data ∘ sample "d1"
            <$> seq 66 50).
Proof. vm_compute. reflexivity. Qed.

Example onmessage_other_type :
  onmessage
    {| WsMessage.type := "status";
       WsMessage.data := WsMessage.data (sample "constructor" 1) |}
    fullWindow
  = Some fullWindow.
Proof. reflexivity. Qed.

Lemma onmessage_frame_witness :
  appendsSample (sample "d2" 65) fullWindow.
Proof.
  destruct (onmessage_frame (sample "d2" 65) fullWindow) as [_ H].
  destruct H as (next & stored & _ & _ & _ & _ & Happ & _);
    [reflexivity | apply (bool_decide_unpack _); vm_compute; exact I | ].
  apply Happ. simpl. lia.
Defined.

(** * Properties of the core *)

Section Geofence.

Import GeofenceEngine.
Local Open Scope Q_scope.

Lemma Qlt_bool_iff a b : Qlt_bool a b = true <-> a < b.
Proof.
  unfold Qlt_bool. rewrite negb_true_iff.
  destruct (Qle_bool b a) eqn:E.
  - apply Qle_bool_iff in E. split; [discriminate | lra].
  - split; [intros _|done]. apply Qnot_le_lt. intros H.
    apply Qle_bool_iff in H. congruence.
Qed.

Lemma qmax_le a b t : qmax a b <= t <-> a <= t /\ b <= t.
Proof.
  unfold qmax. destruct (Qle_bool a b) eqn:E.
  - apply Qle_bool_iff in E. split; [intros; split; lra | tauto].
  - assert (b < a) by (apply Qlt_bool_iff; unfold Qlt_bool; by rewrite E).
    split; [intros; split; lra | tauto].
Qed.

Lemma qmin_le a b t : t <= qmin a b <-> t <= a /\ t <= b.
Proof.
  unfold qmin. destruct (Qle_bool a b) eqn:E.
  - apply Qle_bool_iff in E. split; [intros; split; lra | tauto].
  - assert (b < a) by (apply Qlt_bool_iff; unfold Qlt_bool; by rewrite E).
    split; [intros; split; lra | tauto].
Qed.

Lemma clip_sound p q interval t :
  within_opt (clip p q interval) t <-> within interval t /\ p * t <= q.
Proof.
  destruct interval as [t_enter t_exit]. unfold clip.
  destruct (Qeq_bool p 0) eqn:Hp0.
  - apply Qeq_bool_iff in Hp0.
    assert (Hpt : p * t == 0) by (rewrite Hp0; ring).
    destruct (Qlt_bool q 0) eqn:Hq.
    + apply Qlt_bool_iff in Hq. simpl. split; [done|]. intros [_ H]. lra.
    + assert (0 <= q).
      { apply Qnot_lt_le. intros H. apply Qlt_bool_iff in H. congruence. }
      simpl. split; [intros; split; [done|lra] | tauto].
  - assert (Hne : ~ p == 0).
    { intros H. apply Qeq_bool_iff in H. congruence. }
    assert (Hr : p * (q / p) == q) by (field; done).
    destruct (Qlt_bool p 0) eqn:Hneg.
    + apply Qlt_bool_iff in Hneg. unfold within_opt, within. simpl.
      rewrite qmax_le. split.
      * intros [[H1 H2] H3]. split; [done|]. nra.
      * intros [[H1 H2] H3]. split; [split; [done|]|done]. nra.
    + assert (0 < p).
      { apply Qnot_le_lt. intros H. apply Hne.
        apply Qle_antisym; [done|]. apply Qnot_lt_le. intros H'.
        apply Qlt_bool_iff in H'. congruence. }
      unfold within_opt, within. simpl. rewrite qmin_le. split.
      * intros [H1 [H2 H3]]. split; [done|]. nra.
      * intros [[H1 H2] H3]. split; [done|split; [done|]]. nra.
Qed.

Lemma within_bind (m : option (Q * Q)) (f : Q * Q -> option (Q * Q))
    (P : Prop) (t : Q) :
  (forall i, within_opt (f i) t <-> within i t /\ P) ->
  within_opt (m ≫= f) t <-> within_opt m t /\ P.
Proof. intros Hf. destruct m as [i|]; simpl; [apply Hf | tauto]. Qed.

Lemma clipSegment_within a b z t :
  within_opt (clipSegment a b z) t
  <-> (0 <= t /\ t <= 1) /\ pointWithin a b z t.
Proof.
  unfold clipSegment.
  set (dlat := lat b - lat a). set (dlng := lng b - lng a).
  assert (H4 : forall i,
    within_opt (i3 ← clip (- dlng) (lng a - west z) i;
                clip dlng (east z - lng a) i3) t
    <-> within i t
        /\ (- dlng * t <= lng a - west z /\ dlng * t <= east z - lng a)).
  { intros i.
    rewrite (within_bind _ _ (dlng * t <= east z - lng a))
      by (intros; apply clip_sound).
    rewrite clip_sound. tauto. }
  assert (H2 : forall i,
    within_opt (i2 ← clip dlat (north z - lat a) i;
                i3 ← clip (- dlng) (lng a - west z) i2;
                clip dlng (east z - lng a) i3) t
    <-> within i t
        /\ (dlat * t <= north z - lat a
            /\ - dlng * t <= lng a - west z /\ dlng * t <= east z - lng a)).
  { intros i. rewrite (within_bind _ _ _ _ H4), clip_sound. tauto. }
  rewrite (within_bind _ _ _ _ H2), clip_sound.
  unfold within, pointWithin, dlat, dlng. simpl.
  split.
  - intros [[H01 H1] (H2' & H3 & H4')]. split; [done|]. repeat split; lra.
  - intros [H01 (H1 & H2' & H3 & H4')]. repeat split; try tauto; lra.
Qed.

Lemma crosses_iff a b z :
  crosses a b z = true
  <-> exists t, (0 <= t /\ t <= 1) /\ pointWithin a b z t.
Proof.
  unfold crosses. split.
  - destruct (clipSegment a b z) as [[t_enter t_exit]|] eqn:E; [|done].
    intros H. apply Qle_bool_iff in H. exists t_enter.
    apply clipSegment_within. rewrite E. split; simpl; [lra | done].
  - intros [t Ht]. apply clipSegment_within in Ht.
    destruct (clipSegment a b z) as [[t_enter t_exit]|]; [|done].
    destruct Ht as [H1 H2]. simpl in *. apply Qle_bool_iff. lra.
Qed.

Lemma pointWithin_reverse a b z t :
  pointWithin a b z t -> pointWithin b a z (1 - t).
Proof.
  unfold pointWithin. intros (H1 & H2 & H3 & H4). repeat split; lra.
Qed.

Lemma crosses_reverse a b z : crosses a b z = true -> crosses b a z = true.
Proof.
  rewrite !crosses_iff. intros [t [H01 Ht]]. exists (1 - t).
  split; [lra|]. by apply pointWithin_reverse.
Qed.

Lemma crosses_sym a b z : crosses a b z = crosses b a z.
Proof.
  destruct (crosses a b z) eqn:E1, (crosses b a z) eqn:E2; try done.
  - apply crosses_reverse in E1. congruence.
  - apply crosses_reverse in E2. congruence.
Qed.

Lemma segmentIntersects_sym a b z :
  segmentIntersects a b z = segmentIntersects b a z.
Proof.
  unfold segmentIntersects. rewrite (crosses_sym a b z).
  by destruct (inside a z), (inside b z).
Qed.

Lemma segments_elem_of (route : list Waypoint) (x y : Waypoint) :
  (x, y) ∈ segments route <-> exists l1 l2, route = (l1 ++ x :: y :: l2)%list.
Proof.
  induction route as [|a rest IH]; simpl.
  - split; [intros H; by apply elem_of_nil in H|].
    intros (l1 & l2 & H). by destruct l1.
  - destruct rest as [|b rest'].
    + split; [intros H; by apply elem_of_nil in H|].
      intros (l1 & l2 & H). destruct l1 as [|? [|? ?]]; discriminate.
    + rewrite elem_of_cons, IH. split.
      * intros [[= -> ->] | (l1 & l2 & ->)].
        -- by exists [], rest'.
        -- by exists (a :: l1), l2.
      * intros (l1 & l2 & H). destruct l1 as [|a' l1]; simpl in H.
        -- injection H as -> -> ->. by left.
        -- injection H as -> H. right. by exists l1, l2.
Qed.

Lemma segments_reverse (route : list Waypoint) (x y : Waypoint) :
  (x, y) ∈ segments route -> (y, x) ∈ segments (reverse route).
Proof.
  rewrite !segments_elem_of. intros (l1 & l2 & ->).
  exists (reverse l2), (reverse l1).
  rewrite reverse_app, !reverse_cons, <- !app_assoc. done.
Qed.

Lemma violates_iff route z :
  violates route z = true
  <-> exists x y, (x, y) ∈ segments route /\ segmentIntersects x y z = true.
Proof.
  unfold violates. rewrite existsb_exists. split.
  - intros ([x y] & Hin & H). exists x, y. by rewrite list_elem_of_In.
  - intros (x & y & Hin & H). exists (x, y). by rewrite <- list_elem_of_In.
Qed.

Lemma violates_reverse route z :
  violates route z = true -> violates (reverse route) z = true.
Proof.
  rewrite !violates_iff. intros (x & y & Hin & H). exists y, x.
  split; [by apply segments_reverse | by rewrite segmentIntersects_sym].
Qed.

(** C3: [checkViolations] returns the same set of zone identifiers for a
    route and for its reversal. *)
Theorem checkViolations_reverse (route : list Waypoint)
    (zones : list RestrictedZone) :
  checkViolations (reverse route) zones = checkViolations route zones.
Proof.
  unfold checkViolations. do 2 f_equal. apply list_filter_iff. intros z.
  split; intros H.
  - apply violates_reverse in H. by rewrite reverse_involutive in H.
  - by apply violates_reverse.
Qed.

Example checkViolations_far :
  checkViolations farRoute [farZone] = ∅.
Proof. vm_compute. reflexivity. Qed.

Example checkViolations_crossing :
  checkViolations crossingRoute [crossedZone] = {[ "crossed" ]}.
Proof. vm_compute. reflexivity. Qed.

Example checkViolations_crossing_reversed :
  checkViolations (reverse crossingRoute) [crossedZone] = {[ "crossed" ]}.
Proof. vm_compute. reflexivity. Qed.

End Geofence.

Section Registry.

Import Core.

Lemma decide_flight_consistent (found : gset string) (f : Flight) :
  consistent (decide_flight found f).
Proof.
  unfold decide_flight, consistent. case_bool_decide; simpl.
  - split; [split; [done | discriminate] | done].
  - split; [done | discriminate].
Qed.

Lemma decide_flight_status (found : gset string) (f : Flight) :
  status (decide_flight found f) = (if bool_decide (found = ∅)
                                    then approved else rejected)
  ∧ violations (decide_flight found f) = found.
Proof. unfold decide_flight. by case_bool_decide; subst. Qed.

Lemma submit_consistent (c : Config) (p : FlightPlan) (r r' : Registry)
    (f : Flight) :
  registryConsistent r → submit c p r = inr (f, r') →
  registryConsistent r' ∧ consistent f.
Proof.
  unfold submit, registryConsistent. intros Hr.
  destruct (valid c p); [|discriminate]. simpl. intros [= <- <-]. simpl.
  split; [|apply decide_flight_consistent].
  rewrite insert_insert_eq. apply map_Forall_insert_2; [|done].
  apply decide_flight_consistent.
Qed.

Lemma start_consistent (flightId : nat) (r r' : Registry) :
  registryConsistent r → start flightId r = inr r' → registryConsistent r'.
Proof.
  unfold start, transition, registryConsistent. intros Hr.
  destruct (flights r !! flightId) as [f|] eqn:Hf; [|discriminate].
  destruct (status_eqb (status f) approved) eqn:Hs; [|discriminate].
  apply status_eqb_eq in Hs. intros [= <-]. simpl.
  apply map_Forall_insert_2; [|done].
  destruct (Hr _ _ Hf) as [_ Hok]. unfold consistent. simpl.
  rewrite (Hok Hs). split; [split; [done | discriminate] | discriminate].
Qed.

Lemma complete_consistent (flightId : nat) (r r' : Registry) :
  registryConsistent r → complete flightId r = inr r' → registryConsistent r'.
Proof.
  unfold complete, transition, registryConsistent. intros Hr.
  destruct (flights r !! flightId) as [f|] eqn:Hf; [|discriminate].
  destruct (status_eqb (status f) active) eqn:Hs; [|discriminate].
  apply status_eqb_eq in Hs. intros [= <-]. simpl.
  apply map_Forall_insert_2; [|done].
  destruct (Hr _ _ Hf) as [Hiff _]. unfold consistent. simpl.
  rewrite Hs in Hiff.
  split; [split; [|discriminate] | discriminate].
  intros Hne. apply Hiff in Hne. discriminate.
Qed.

Lemma handle_consistent (c : Config) (r : Registry) (q : Request) :
  registryConsistent r → registryConsistent (handle c r q).
Proof.
  intros Hr. destruct q as [p|i|i]; simpl.
  - destruct (submit c p r) as [|[f r']] eqn:E; [done|].
    by destruct (submit_consistent c p r r' f Hr E).
  - destruct (start i r) as [|r'] eqn:E; [done|].
    by apply (start_consistent i r r').
  - destruct (complete i r) as [|r'] eqn:E; [done|].
    by apply (complete_consistent i r r').
Qed.

Lemma run_consistent (c : Config) (requests : list Request) :
  registryConsistent (run c requests).
Proof.
  unfold run. induction requests as [|q requests IH] using rev_ind.
  - apply map_Forall_empty.
  - rewrite foldl_app. simpl. by apply handle_consistent.
Qed.

(** C1: every flight the registry holds, after any sequence of submissions,
    simulation starts and simulation completions, has a non-empty violation
    set if and only if its status is [rejected], and has an empty violation
    set when its status is [approved]. *)
Theorem registry_flights_consistent (c : Config) (requests : list Request)
    (flightId : nat) (f : Flight) :
  flights (run c requests) !! flightId = Some f →
  (violations f ≠ ∅ ↔ status f = rejected)
  ∧ (status f = approved → violations f = ∅).
Proof. intros Hf. exact (run_consistent c requests flightId f Hf). Qed.

Lemma registry_flights_consistent_witness :
  (violations
     {| id := 1; plan := samplePlan crossingRoute; status := rejected;
        violations := {[ "crossed" ]} |} ≠ ∅
   ↔ status
       {| id := 1; plan := samplePlan crossingRoute; status := rejected;
          violations := {[ "crossed" ]} |} = rejected)
  ∧ (status
       {| id := 1; plan := samplePlan crossingRoute; status := rejected;
          violations := {[ "crossed" ]} |} = approved →
     violations
       {| id := 1; plan := samplePlan crossingRoute; status := rejected;
          violations := {[ "crossed" ]} |} = ∅).
Proof.
  apply (registry_flights_consistent sampleConfig
           [ SubmitFlight (samplePlan farRoute);
             SubmitFlight (samplePlan crossingRoute);
             StartSimulation 0; CompleteSimulation 0 ] 1).
  vm_compute. reflexivity.
Defined.

Example registry_run_statuses :
  status <$> flights
    (run sampleConfig
       [ SubmitFlight (samplePlan farRoute);
         SubmitFlight (samplePlan crossingRoute);
         SubmitFlight (samplePlan []);
         StartSimulation 0; StartSimulation 1; StartSimulation 0 ])
  = {[ 0 := active; 1 := rejected ]}.
Proof. vm_compute. reflexivity. Qed.

End Registry.

(** * Further properties of the dashboard *)

(** Membership in a literal list, as a hypothesis and as a goal. *)
Ltac elem_of_inv H :=
  repeat match type of H with
         | _ ∈ _ :: _ => apply elem_of_cons in H as [H|H]
         | _ ∈ [] => by apply elem_of_nil in H
         | _ = _ => discriminate H
         end.

Ltac elem_of_literal := rewrite !elem_of_cons; auto 10.

(** ** Submitting a flight, continued *)

(** The shape of every run of [createFlight]. *)
Lemma createFlight_cases (toISOString : string → option string)
    (flightForm : FlightForm.t) (server : FlightForm.t → FetchResult) :
  let request body := FetchPost (API_BASE +:+ "/flights/") (Some body) in
  let error := ConsoleError "Error creating flight:" in
  (length (FlightForm.waypoints flightForm) < 2
   ∧ createFlight toISOString flightForm server
     = (flightForm,
        [PreventDefault; Alert "Необходимо указать минимум 2 точки маршрута"]))
  ∨ (2 ≤ length (FlightForm.waypoints flightForm)
     ∧ (toISOString (FlightForm.start_time flightForm) = None
        ∨ toISOString (FlightForm.end_time flightForm) = None)
     ∧ createFlight toISOString flightForm server
       = (flightForm, [PreventDefault; error]))
  ∨ ∃ start_iso end_iso body,
      2 ≤ length (FlightForm.waypoints flightForm)
      ∧ toISOString (FlightForm.start_time flightForm) = Some start_iso
      ∧ toISOString (FlightForm.end_time flightForm) = Some end_iso
      ∧ body = {| FlightForm.drone_id := FlightForm.drone_id flightForm;
                  FlightForm.pilot_id := FlightForm.pilot_id flightForm;
                  FlightForm.start_time := start_iso;
                  FlightForm.end_time := end_iso;
                  FlightForm.altitude := FlightForm.altitude flightForm;
                  FlightForm.description := FlightForm.description flightForm;
                  FlightForm.waypoints := FlightForm.waypoints flightForm |}
      ∧ ((server body = NetworkError
          ∧ createFlight toISOString flightForm server
            = (flightForm, [PreventDefault; request body; error]))
         ∨ ((∃ json, server body = Response false json)
            ∧ createFlight toISOString flightForm server
              = (flightForm, [PreventDefault; request body]))
         ∨ (server body = Response true None
            ∧ createFlight toISOString flightForm server
              = (flightForm, [PreventDefault; request body; error]))
         ∨ ∃ newFlight,
             server body = Response true (Some newFlight)
             ∧ createFlight toISOString flightForm server
               = (FlightForm.initial,
                  [PreventDefault; request body;
                   Alert (creationReport newFlight); LoadData])).
Proof.
  intros request error. unfold createFlight.
  destruct (Nat.ltb_spec (length (FlightForm.waypoints flightForm)) 2)
    as [Hlt|Hge]; [by left | right].
  destruct (toISOString (FlightForm.start_time flightForm)) as [s|] eqn:Hs;
    [|left; auto].
  destruct (toISOString (FlightForm.end_time flightForm)) as [e|] eqn:He;
    [|left; auto].
  right. eexists s, e, _. do 4 (split; [done|]).
  destruct (server _) as [|[] [newFlight|]] eqn:Hserver; eauto 10.
Qed.

(** Splits a goal about [createFlight] into its six outcomes and rewrites
    the call away. *)
Ltac createFlight_outcomes toISOString flightForm server :=
  destruct (createFlight_cases toISOString flightForm server)
    as [[? ->]
       |[(? & ? & ->)
        |(? & ? & ? & ? & ? & ? & ?
          & [[? ->]|[[[? ?] ->]|[[? ->]|(? & ? & ->)]]])]];
  simpl.

(** X1: [createFlight] clears the form only when a flight was created: if
    [loadData] is called then the server answered [ok] with a flight, the
    operator was shown the report on it and the form is reset; otherwise the
    form is exactly what the operator had typed. *)
Theorem createFlight_form_kept_unless_created
    (toISOString : string → option string)
    (flightForm : FlightForm.t) (server : FlightForm.t → FetchResult) :
  (LoadData ∈ snd (createFlight toISOString flightForm server) →
   fst (createFlight toISOString flightForm server) = FlightForm.initial
   ∧ ∃ body newFlight,
       server body = Response true (Some newFlight)
       ∧ Alert (creationReport newFlight)
         ∈ snd (createFlight toISOString flightForm server))
  ∧ (LoadData ∉ snd (createFlight toISOString flightForm server) →
     fst (createFlight toISOString flightForm server) = flightForm).
Proof.
  createFlight_outcomes toISOString flightForm server;
    (split; [intros Hin; try solve [exfalso; elem_of_inv Hin]
            | intros Hout; try done]).
  - split; [done|]. eexists _, _. split; [eassumption|]. elem_of_literal.
  - exfalso. apply Hout. elem_of_literal.
Qed.

(** X2: when the start or the end time of the form is not a date,
    [createFlight] sends no request, does not reload the collections and
    keeps the form. *)
Theorem createFlight_invalid_date_sends_nothing
    (toISOString : string → option string)
    (flightForm : FlightForm.t) (server : FlightForm.t → FetchResult) :
  (toISOString (FlightForm.start_time flightForm) = None
   ∨ toISOString (FlightForm.end_time flightForm) = None) →
  fst (createFlight toISOString flightForm server) = flightForm
  ∧ (LoadData ∉ snd (createFlight toISOString flightForm server))
  ∧ ∀ url body,
      FetchPost url body ∉ snd (createFlight toISOString flightForm server).
Proof.
  intros Hdate.
  createFlight_outcomes toISOString flightForm server;
    try (exfalso; destruct Hdate; congruence);
    (split; [done|]; split; [intros Hin|intros url b Hin]; elem_of_inv Hin).
Qed.

Lemma createFlight_invalid_date_sends_nothing_witness :
  fst (createFlight (fun _ => None) twoWaypointForm (fun _ => NetworkError))
  = twoWaypointForm
  ∧ (LoadData
     ∉ snd (createFlight (fun _ => None) twoWaypointForm
              (fun _ => NetworkError)))
  ∧ ∀ url body,
      FetchPost url body
      ∉ snd (createFlight (fun _ => None) twoWaypointForm
               (fun _ => NetworkError)).
Proof.
  apply (createFlight_invalid_date_sends_nothing (fun _ => None)
           twoWaypointForm (fun _ => NetworkError)).
  left. reflexivity.
Defined.

Lemma jsonNumber_null (x : float) :
  jsonNumber x = JNull
  ↔ PrimFloat.is_nan x = true ∨ PrimFloat.is_infinity x = true.
Proof.
  unfold jsonNumber.
  destruct (PrimFloat.is_nan x), (PrimFloat.is_infinity x); simpl;
    try (split; [auto | done]).
  destruct (PrimFloat.eqb x 0%float);
    (split; [discriminate | by intros [?|?]]).
Qed.

(** X3: every request [createFlight] sends goes to the flights endpoint, and
    the body written by [JSON.stringify] carries the identifiers, the
    description and the waypoints of the form (at least two), the two times
    in ISO form, and the altitude of the form, as [null] when it is [NaN] or
    infinite. *)
Theorem createFlight_request_body
    (toISOString : string → option string)
    (flightForm : FlightForm.t) (server : FlightForm.t → FetchResult)
    (url : string) (body : option FlightForm.t) :
  FetchPost url body ∈ snd (createFlight toISOString flightForm server) →
  url = "http://localhost:8000/api/flights/"
  ∧ 2 ≤ length (FlightForm.waypoints flightForm)
  ∧ (jsonNumber (FlightForm.altitude flightForm) = JNull
     ↔ PrimFloat.is_nan (FlightForm.altitude flightForm) = true
       ∨ PrimFloat.is_infinity (FlightForm.altitude flightForm) = true)
  ∧ ∃ sent start_iso end_iso,
      body = Some sent
      ∧ toISOString (FlightForm.start_time flightForm) = Some start_iso
      ∧ toISOString (FlightForm.end_time flightForm) = Some end_iso
      ∧ jsonBody sent
        = JObject
            [ ("drone_id", JString (FlightForm.drone_id flightForm));
              ("pilot_id", JString (FlightForm.pilot_id flightForm));
              ("start_time", JString start_iso);
              ("end_time", JString end_iso);
              ("altitude", jsonNumber (FlightForm.altitude flightForm));
              ("description", JString (FlightForm.description flightForm));
              ("waypoints",
               JArray (jsonWaypoint <$> FlightForm.waypoints flightForm)) ].
Proof.
  createFlight_outcomes toISOString flightForm server; intros Hin;
    elem_of_inv Hin;
    injection Hin as -> ->; (split; [done|]); (split; [done|]);
    (split; [apply jsonNumber_null|]); eexists _, _, _;
    (split; [reflexivity|]); (split; [eassumption|]);
    (split; [eassumption|]); subst; reflexivity.
Qed.

Lemma createFlight_request_body_witness :
  "http://localhost:8000/api/flights/" = "http://localhost:8000/api/flights/"
  ∧ 2 ≤ length (FlightForm.waypoints nanAltitudeForm)
  ∧ (jsonNumber (FlightForm.altitude nanAltitudeForm) = JNull
     ↔ PrimFloat.is_nan (FlightForm.altitude nanAltitudeForm) = true
       ∨ PrimFloat.is_infinity (FlightForm.altitude nanAltitudeForm) = true)
  ∧ ∃ sent start_iso end_iso,
      Some nanAltitudeForm = Some sent
      ∧ Some (FlightForm.start_time nanAltitudeForm) = Some start_iso
      ∧ Some (FlightForm.end_time nanAltitudeForm) = Some end_iso
      ∧ jsonBody sent
        = JObject
            [ ("drone_id", JString (FlightForm.drone_id nanAltitudeForm));
              ("pilot_id", JString (FlightForm.pilot_id nanAltitudeForm));
              ("start_time", JString start_iso);
              ("end_time", JString end_iso);
              ("altitude", jsonNumber (FlightForm.altitude nanAltitudeForm));
              ("description",
               JString (FlightForm.description nanAltitudeForm));
              ("waypoints",
               JArray (jsonWaypoint <$> FlightForm.waypoints nanAltitudeForm)) ].
Proof.
  apply (createFlight_request_body Some nanAltitudeForm
           (fun _ => NetworkError)).
  simpl. elem_of_literal.
Defined.

Example jsonBody_cleared_altitude :
  jsonBody nanAltitudeForm
  = JObject
      [ ("drone_id", JString "drone-1"); ("pilot_id", JString "pilot-1");
        ("start_time", JString "2025-01-01T10:00");
        ("end_time", JString "2025-01-01T11:00");
        ("altitude", JNull); ("description", JString "");
        ("waypoints",
         JArray [ JObject [("lat", JNumber 40%float); ("lng", JNumber 40%float)];
                  JObject [("lat", JNumber 41%float); ("lng", JNumber 41%float)] ]) ].
Proof. reflexivity. Qed.

Lemma createFlight_sent_waypoints
    (toISOString : string → option string)
    (flightForm : FlightForm.t) (server : FlightForm.t → FetchResult)
    (url : string) (sent : FlightForm.t) :
  FetchPost url (Some sent)
  ∈ snd (createFlight toISOString flightForm server) →
  FlightForm.waypoints sent = FlightForm.waypoints flightForm
  ∧ 2 ≤ length (FlightForm.waypoints flightForm).
Proof.
  createFlight_outcomes toISOString flightForm server; intros Hin;
    elem_of_inv Hin;
    injection Hin as -> ->; subst; simpl; auto.
Qed.

(** X5: whatever the operator did with the form, a request sent by
    [createFlight] carries at least two waypoints, none of which has a
    latitude or a longitude that is [NaN] or zero. *)
Theorem form_never_sends_bad_waypoints
    (parseFloat : string → float) (toISOString : string → option string)
    (events : list FormEvent) (server : FlightForm.t → FetchResult)
    (url : string) (sent : FlightForm.t) :
  FetchPost url (Some sent)
  ∈ snd (createFlight toISOString (formRun parseFloat toISOString events)
           server) →
  2 ≤ length (FlightForm.waypoints sent)
  ∧ ∀ w, w ∈ FlightForm.waypoints sent →
         PrimFloat.is_nan (lat w) = false
         ∧ PrimFloat.eqb (lat w) 0%float = false
         ∧ PrimFloat.is_nan (lng w) = false
         ∧ PrimFloat.eqb (lng w) 0%float = false.
Proof.
  intros Hin. apply createFlight_sent_waypoints in Hin as [-> Hlen].
  split; [done|]. intros w Hw.
  pose proof (formRun_truthy parseFloat toISOString events) as Hall.
  rewrite Forall_forall in Hall. destruct (Hall w Hw) as [Hlat Hlng].
  apply truthy_true_iff in Hlat, Hlng. tauto.
Qed.

Lemma form_never_sends_bad_waypoints_witness :
  2 ≤ length (FlightForm.waypoints (formRun parseFloatSample Some twoClicks))
  ∧ ∀ w, w ∈ FlightForm.waypoints (formRun parseFloatSample Some twoClicks) →
         PrimFloat.is_nan (lat w) = false
         ∧ PrimFloat.eqb (lat w) 0%float = false
         ∧ PrimFloat.is_nan (lng w) = false
         ∧ PrimFloat.eqb (lng w) 0%float = false.
Proof.
  apply (form_never_sends_bad_waypoints parseFloatSample Some twoClicks
           (fun _ => NetworkError) "http://localhost:8000/api/flights/"
           (formRun parseFloatSample Some twoClicks)).
  simpl. elem_of_literal.
Defined.



(** ** Starting a simulation *)





(** X7: [simulateFlight] alerts the operator and reloads the collections
    exactly when the server answered [ok], and logs an error exactly when
    the request itself failed; a refusal by the server passes in silence. *)
Theorem simulateFlight_feedback_iff_ok
    (flightId : string) (server : string → FetchResult) :
  ((∃ message, Alert message ∈ simulateFlight flightId server)
   ↔ ∃ json, server flightId = Response true json)
  ∧ (LoadData ∈ simulateFlight flightId server
     ↔ ∃ json, server flightId = Response true json)
  ∧ ((∃ label, ConsoleError label ∈ simulateFlight flightId server)
     ↔ server flightId = NetworkError).
Proof.
  unfold simulateFlight.
  destruct (server flightId) as [|[] json]; repeat split;
    try (intros [? H]; elem_of_inv H); try (intros H; elem_of_inv H);
    try discriminate; eauto;
    try (eexists; elem_of_literal); try elem_of_literal.
Qed.

(** ** What the map shows of the telemetry *)

Example arrayIndex_samples :
  JSObject.arrayIndex <$> ["0"; "7"; "10"; "01"; ""; "-1"; "1.5"; "d1";
                           "4294967294"; "4294967295"]
  = [Some 0; Some 7; Some 10; None; None; None; None; None;
     Some 4294967294; None]%N.
Proof. reflexivity. Qed.

Example entries_order :
  JSObject.entries [("b", 1); ("10", 2); ("a", 3); ("9", 4)]
  = [("9", 4); ("10", 2); ("b", 1); ("a", 3)].
Proof. reflexivity. Qed.

Lemma slice_last_nil_inv {A : Type} (n : nat) (l : list A) :
  0 < n → JS.slice_last n l = [] → l = [].
Proof.
  intros Hn H. apply (f_equal length) in H.
  rewrite slice_last_length in H. simpl in H.
  apply length_zero_iff_nil. lia.
Qed.

Lemma slice_last_keeps_last {A : Type} (n : nat) (l : list A) :
  0 < n → last (JS.slice_last n l) = last l.
Proof.
  intros Hn. destruct l as [|x l] using rev_ind; [done|].
  by rewrite slice_last_last, last_snoc.
Qed.

Lemma latestSample_last (telemetryList : list TelemetryData.t) :
  latestSample telemetryList = last telemetryList.
Proof.
  unfold latestSample. destruct telemetryList as [|x l]; [done|].
  simpl length. rewrite last_lookup. simpl. by rewrite Nat.sub_0_r.
Qed.

Lemma receive_stored_nonempty (messages : list WsMessage.t) (d : string)
    (telemetryData : JSObject.t (list TelemetryData.t))
    (stored : list TelemetryData.t) :
  receive messages = Some telemetryData →
  JSObject.own telemetryData d = Some stored → stored ≠ [].
Proof.
  revert telemetryData stored.
  induction messages as [|m messages IH] using rev_ind; intros st stored.
  - by intros [= <-].
  - rewrite receive_snoc.
    destruct (receive messages) as [st0|]; [|discriminate]. simpl.
    intros Hm. rewrite (onmessage_own m st0 st d Hm). unfold storedAfter.
    destruct (String.eqb (WsMessage.type m) "telemetry"
              && String.eqb (TelemetryData.drone_id (WsMessage.data m)) d).
    + intros [= <-] Hnil. apply slice_last_nil_inv in Hnil; [|lia].
      by destruct (default [] _).
    + by apply IH.
Qed.

(** The first entry under a key decides what the markers show for it. *)
Lemma own_markers (entries : list (string * list TelemetryData.t))
    (d : string) :
  (∀ stored, JSObject.own entries d = Some stored → stored ≠ []) →
  JSObject.own
    (omap (fun entry =>
             (fun latest => (fst entry, latest)) <$> latestSample (snd entry))
       entries) d
  = JSObject.own entries d ≫= last.
Proof.
  induction entries as [|[k l] entries IH]; intros Hne; [done|].
  simpl in *. rewrite latestSample_last.
  destruct (String.eqb_spec k d) as [->|Hk].
  - specialize (Hne l eq_refl). destruct (last l) as [x|] eqn:Hl.
    + simpl. by rewrite String.eqb_refl.
    + by apply last_None in Hl.
  - destruct (last l) as [x|]; simpl.
    + destruct (String.eqb_spec k d); [done | by apply IH].
    + by apply IH.
Qed.

(** X8: while the page is up, the sample shown for a drone is the last
    sample received for it, and no sample is shown for a drone that sent
    none. *)
Theorem liveMarkers_latest_received (messages : list WsMessage.t)
    (telemetryData : JSObject.t (list TelemetryData.t)) (d : string) :
  receive messages = Some telemetryData →
  JSObject.own (liveMarkers telemetryData) d
  = last (received_for d messages).
Proof.
  intros Hst. unfold liveMarkers. rewrite own_markers.
  2:{ intros stored. rewrite own_entries.
      apply (receive_stored_nonempty messages d telemetryData stored Hst). }
  rewrite own_entries.
  pose proof (receive_lookup d messages telemetryData Hst) as Hstored.
  destruct (JSObject.own telemetryData d) as [stored|] eqn:Hd; simpl in *.
  - rewrite Hstored. apply slice_last_keeps_last. lia.
  - symmetry in Hstored. apply slice_last_nil_inv in Hstored; [|lia].
    by rewrite Hstored.
Qed.

Lemma liveMarkers_latest_received_witness :
  JSObject.own (liveMarkers twoDrones) "d2"
  = last (received_for "d2"
            [sample "d2" 65; sample "d1" 66; sample "d2" 67]).
Proof.
  apply (liveMarkers_latest_received
           [sample "d2" 65; sample "d1" 66; sample "d2" 67] twoDrones "d2").
  reflexivity.
Defined.

(** X9: while the page is up, [telemetryData] has an entry for a drone
    exactly when a sample was received for it, no stored list is empty, and
    so every entry has its marker. *)
Theorem telemetry_entries_nonempty (messages : list WsMessage.t)
    (telemetryData : JSObject.t (list TelemetryData.t)) (d : string) :
  receive messages = Some telemetryData →
  (is_Some (JSObject.own telemetryData d) ↔ received_for d messages ≠ [])
  ∧ (is_Some (JSObject.own (liveMarkers telemetryData) d)
     ↔ is_Some (JSObject.own telemetryData d))
  ∧ ∀ stored, JSObject.own telemetryData d = Some stored → 0 < length stored.
Proof.
  intros Hst.
  assert (Hpos : ∀ stored,
             JSObject.own telemetryData d = Some stored → 0 < length stored).
  { intros stored H.
    apply (receive_stored_nonempty messages d telemetryData stored Hst) in H.
    destruct stored; [done | simpl; lia]. }
  pose proof (receive_lookup d messages telemetryData Hst) as Hstored.
  split; [|split; [|done]].
  - destruct (JSObject.own telemetryData d) as [stored|] eqn:Hd; simpl in *.
    + split; [intros _ Hnil | by eauto].
      specialize (Hpos stored eq_refl). rewrite Hstored, Hnil in Hpos.
      simpl in Hpos. lia.
    + symmetry in Hstored. apply slice_last_nil_inv in Hstored; [|lia].
      split; [by intros [? ?] | by rewrite Hstored].
  - unfold liveMarkers. rewrite own_markers.
    2:{ intros stored. rewrite own_entries.
        apply (receive_stored_nonempty messages d telemetryData stored Hst). }
    rewrite own_entries.
    destruct (JSObject.own telemetryData d) as [stored|] eqn:Hd; simpl.
    + specialize (Hpos stored eq_refl).
      destruct stored as [|x l] using rev_ind; [simpl in Hpos; lia|].
      rewrite last_snoc. split; eauto.
    + split; by intros [? ?].
Qed.

Lemma telemetry_entries_nonempty_witness :
  (is_Some (JSObject.own twoDrones "d2")
   ↔ received_for "d2" [sample "d2" 65; sample "d1" 66; sample "d2" 67] ≠ [])
  ∧ (is_Some (JSObject.own (liveMarkers twoDrones) "d2")
     ↔ is_Some (JSObject.own twoDrones "d2"))
  ∧ ∀ stored, JSObject.own twoDrones "d2" = Some stored → 0 < length stored.
Proof.
  apply (telemetry_entries_nonempty
           [sample "d2" 65; sample "d1" 66; sample "d2" 67] twoDrones "d2").
  reflexivity.
Defined.

Lemma storedAfter_commutes (m1 m2 : WsMessage.t)
    (before : option (list TelemetryData.t)) (d : string) :
  TelemetryData.drone_id (WsMessage.data m1)
  ≠ TelemetryData.drone_id (WsMessage.data m2) →
  storedAfter m1 (storedAfter m2 before d) d
  = storedAfter m2 (storedAfter m1 before d) d.
Proof.
  intros Hne. unfold storedAfter.
  destruct (String.eqb (WsMessage.type m1) "telemetry"),
    (String.eqb (WsMessage.type m2) "telemetry"); simpl; try done.
  destruct (String.eqb_spec (TelemetryData.drone_id (WsMessage.data m1)) d)
    as [H1|H1];
    destruct (String.eqb_spec (TelemetryData.drone_id (WsMessage.data m2)) d)
      as [H2|H2]; try done.
  congruence.
Qed.

Lemma onmessage_twice_None (m1 m2 : WsMessage.t)
    (prev : JSObject.t (list TelemetryData.t)) :
  TelemetryData.drone_id (WsMessage.data m1)
  ≠ TelemetryData.drone_id (WsMessage.data m2) →
  onmessage m2 prev ≫= onmessage m1 = None
  ↔ onmessage m2 prev = None ∨ onmessage m1 prev = None.
Proof.
  intros Hne. destruct (onmessage m2 prev) as [p2|] eqn:H2; simpl;
    [|by split; auto].
  rewrite !onmessage_None, (onmessage_own m2 prev p2 _ H2).
  unfold storedAfter.
  destruct (String.eqb_spec (TelemetryData.drone_id (WsMessage.data m2))
              (TelemetryData.drone_id (WsMessage.data m1))) as [H|_];
    [congruence|].
  rewrite andb_false_r. split; [by right | by intros [?|?]].
Qed.

(** X10: messages of two different drones can be handled in either order:
    the lists stored for every drone are the same, and the handler throws
    in one order exactly when it throws in the other.  Only the order of
    the entries can differ. *)
Theorem onmessage_commutes (m1 m2 : WsMessage.t)
    (prev : JSObject.t (list TelemetryData.t)) :
  TelemetryData.drone_id (WsMessage.data m1)
  ≠ TelemetryData.drone_id (WsMessage.data m2) →
  (onmessage m2 prev ≫= onmessage m1 = None
   ↔ onmessage m1 prev ≫= onmessage m2 = None)
  ∧ ∀ after12 after21,
      onmessage m1 prev ≫= onmessage m2 = Some after12 →
      onmessage m2 prev ≫= onmessage m1 = Some after21 →
      ∀ d, JSObject.own after12 d = JSObject.own after21 d.
Proof.
  intros Hne. split.
  - rewrite (onmessage_twice_None m1 m2) by done.
    rewrite (onmessage_twice_None m2 m1) by done. tauto.
  - intros a b Ha Hb d.
    destruct (onmessage m1 prev) as [p1|] eqn:H1; [|discriminate].
    destruct (onmessage m2 prev) as [p2|] eqn:H2; [|discriminate].
    simpl in *.
    rewrite (onmessage_own m2 p1 a d Ha), (onmessage_own m1 prev p1 d H1).
    rewrite (onmessage_own m1 p2 b d Hb), (onmessage_own m2 prev p2 d H2).
    symmetry. by apply storedAfter_commutes.
Qed.

Lemma onmessage_commutes_witness :
  (onmessage (sample "d2" 66) [] ≫= onmessage (sample "d1" 65) = None
   ↔ onmessage (sample "d1" 65) [] ≫= onmessage (sample "d2" 66) = None)
  ∧ ∀ after12 after21,
      onmessage (sample "d1" 65) [] ≫= onmessage (sample "d2" 66)
      = Some after12 →
      onmessage (sample "d2" 66) [] ≫= onmessage (sample "d1" 65)
      = Some after21 →
      ∀ d, JSObject.own after12 d = JSObject.own after21 d.
Proof.
  apply (onmessage_commutes (sample "d1" 65) (sample "d2" 66) []).
  simpl. discriminate.
Defined.

Example onmessage_order_of_entries :
  fst <$> default []
            (onmessage (sample "d1" 65) [] ≫= onmessage (sample "d2" 66))
  = ["d1"; "d2"]
  ∧ fst <$> default []
              (onmessage (sample "d2" 66) [] ≫= onmessage (sample "d1" 65))
    = ["d2"; "d1"].
Proof. split; reflexivity. Qed.

(** X21: the page loses its telemetry state exactly when some telemetry
    message carries a [drone_id] that names a property inherited from
    [Object.prototype]; every other sequence of messages is absorbed. *)
Theorem receive_throws_iff (messages : list WsMessage.t) :
  receive messages = None
  ↔ ∃ m, m ∈ messages
         ∧ WsMessage.type m = "telemetry"
         ∧ TelemetryData.drone_id (WsMessage.data m)
           ∈ JSObject.prototypeKeys.
Proof.
  pose proof (receive_is_Some messages) as His. unfold ordinaryIds in His.
  split.
  - intros Hnone.
    destruct (decide (Exists (fun m =>
                WsMessage.type m = "telemetry"
                ∧ TelemetryData.drone_id (WsMessage.data m)
                  ∈ JSObject.prototypeKeys) messages)) as [Hex|Hno].
    + apply Exists_exists in Hex as (m & Hm & Ht & Hp). eauto.
    + exfalso. destruct His as [_ His]. destruct His as [st Hst].
      * intros m Hm Ht Hp. apply Hno. apply Exists_exists. eauto.
      * congruence.
  - intros (m & Hm & Ht & Hp).
    destruct (receive messages) as [st|] eqn:Hst; [|done].
    exfalso. destruct His as [His _]. by apply (His (ltac:(eauto)) m).
Qed.

(** ** The dashboard and the map *)

(** X11: the dashboard lists the last five flights (all of them when there
    are fewer), newest first: its entry [i] is the flight [i] places before
    the end of [flights]. *)
Theorem recentFlights_newest_first (flights : list Flight.t) :
  length (recentFlights flights) = length flights `min` 5
  ∧ ∀ i, i < length flights `min` 5 →
         recentFlights flights !! i = flights !! (length flights - 1 - i).
Proof.
  unfold recentFlights.
  assert (Hlen : length (JS.slice_last 5 flights) = length flights `min` 5)
    by apply slice_last_length.
  split; [by rewrite length_reverse|].
  intros i Hi. rewrite reverse_lookup by lia. rewrite Hlen.
  unfold JS.slice_last. rewrite lookup_drop. f_equal. lia.
Qed.

Lemma status_string_active (s : FlightStatus) :
  String.eqb (status_string s) "active" = true ↔ s = active.
Proof. destruct s; simpl; split; try done; discriminate. Qed.

Lemma status_string_approved (s : FlightStatus) :
  String.eqb (status_string s) "approved" = true ↔ s = approved.
Proof. destruct s; simpl; split; try done; discriminate. Qed.

(** X12: the map draws the route of a flight exactly when the flight is
    [approved] or [active], in green for the former and in blue for the
    latter; no other flight is drawn. *)
Theorem mapRoutes_drawn (flights : list Flight.t) :
  (∀ p, p ∈ mapRoutes flights →
        ∃ f, f ∈ flights ∧ p = routePolyline f
             ∧ ((Flight.status f = approved ∧ Polyline.color p = "green")
                ∨ (Flight.status f = active ∧ Polyline.color p = "blue")))
  ∧ (∀ f, f ∈ flights →
          Flight.status f = approved ∨ Flight.status f = active →
          routePolyline f ∈ mapRoutes flights).
Proof.
  unfold mapRoutes. split.
  - intros p Hp. apply list_elem_of_fmap in Hp as (f & -> & Hf).
    apply list_elem_of_filter in Hf as [Hs Hf].
    exists f. split; [done|]. split; [done|].
    unfold routePolyline. simpl.
    destruct (Flight.status f); simpl in *; try discriminate; auto.
  - intros f Hf Hs. apply list_elem_of_fmap. exists f. split; [done|].
    apply list_elem_of_filter. split; [|done].
    by destruct Hs as [-> | ->].
Qed.


(** ** The waypoint list of the form *)

(** X14: removing the waypoint that was just added gives back the form as
    it was. *)
Theorem removeWaypoint_addWaypoint (lat lng : float) (prev : FlightForm.t) :
  removeWaypoint (Z.of_nat (length (FlightForm.waypoints prev)))
    (addWaypoint lat lng prev)
  = prev.
Proof.
  destruct prev as [d p s e a desc wps]. unfold removeWaypoint, addWaypoint.
  simpl. f_equal. unfold JS.filter_index.
  rewrite filter_from_spec by lia.
  rewrite Nat2Z.id, Nat.sub_0_r.
  rewrite take_app_length, drop_ge by (rewrite length_app; simpl; lia).
  apply app_nil_r.
Qed.

Lemma removeWaypoint_length (index : nat) (prev : FlightForm.t) :
  index < length (FlightForm.waypoints prev) →
  length (FlightForm.waypoints (removeWaypoint (Z.of_nat index) prev)) + 1
  = length (FlightForm.waypoints prev).
Proof.
  intros Hi. simpl. unfold JS.filter_index.
  rewrite filter_from_spec by lia.
  rewrite Nat2Z.id, Nat.sub_0_r, length_app, length_take, length_drop. lia.
Qed.

Lemma triggers_element (tag className : string) (onClick : option Action)
    (children : list Node) :
  triggers (Element tag className onClick children)
  = option_list onClick ++ triggersAll children.
Proof.
  simpl. f_equal. unfold triggersAll.
  induction children as [|c children IH]; [done|].
  simpl. by rewrite IH.
Qed.

Lemma triggersAll_cons (n : Node) (nodes : list Node) :
  triggersAll (n :: nodes) = triggers n ++ triggersAll nodes.
Proof. reflexivity. Qed.

Lemma triggersAll_waypoints (toFixed6 : float → string)
    (indexText : nat → string) (waypoints : list Waypoint) (k : nat) :
  triggersAll
    (imap (fun i => renderWaypoint toFixed6 indexText (k + i)) waypoints)
  = RemoveWaypoint <$> seq k (length waypoints).
Proof.
  revert k. induction waypoints as [|w waypoints IH]; intros k; [done|].
  simpl. unfold triggersAll. simpl. rewrite Nat.add_0_r. f_equal.
  rewrite <- IH. unfold triggersAll. do 2 f_equal.
  apply imap_ext. intros i x _. simpl. f_equal. lia.
Qed.

(** X15: the waypoint list of the form offers one removal per waypoint,
    for the positions [0] to [length - 1] in order, and each offered removal
    shortens the route by exactly one waypoint. *)
Theorem renderWaypointList_offers_removals
    (toFixed6 : float → string) (indexText : nat → string)
    (flightForm : FlightForm.t) :
  triggersAll (renderWaypointList toFixed6 indexText flightForm)
  = RemoveWaypoint <$> seq 0 (length (FlightForm.waypoints flightForm))
  ∧ ∀ index,
      RemoveWaypoint index
      ∈ triggersAll (renderWaypointList toFixed6 indexText flightForm) →
      length (FlightForm.waypoints
                (removeWaypoint (Z.of_nat index) flightForm)) + 1
      = length (FlightForm.waypoints flightForm).
Proof.
  assert (Hall :
    triggersAll (renderWaypointList toFixed6 indexText flightForm)
    = RemoveWaypoint <$> seq 0 (length (FlightForm.waypoints flightForm))).
  { unfold renderWaypointList.
    destruct (FlightForm.waypoints flightForm) as [|w l] eqn:Hw; [done|].
    replace (0 <? length (w :: l)) with true by done. unfold when.
    rewrite triggersAll_cons, triggers_element, triggersAll_cons,
      triggers_element.
    change (triggersAll []) with (@nil Action). simpl option_list.
    rewrite !app_nil_l, app_nil_r.
    apply (triggersAll_waypoints toFixed6 indexText (w :: l) 0). }
  split; [done|]. intros index Hin. rewrite Hall in Hin.
  apply list_elem_of_fmap in Hin as (i & [= ->] & Hi).
  apply elem_of_seq in Hi. apply removeWaypoint_length. lia.
Qed.

(** ** Status presentation, continued *)

(** X16: the five statuses get five different labels and five different
    colour classes. *)
Theorem status_presentation_distinguishes (a b : FlightStatus) :
  (getStatusText (status_string a) = getStatusText (status_string b) ↔ a = b)
  ∧ (getStatusColor (status_string a) = getStatusColor (status_string b)
     ↔ a = b).
Proof.
  split; (split; [|by intros ->]); destruct a, b; simpl; intros H;
    try reflexivity; discriminate H.
Qed.

(** ** Loading the collections *)

(** Case analysis on the four responses of [loadData]. *)
Ltac loadData_outcomes server :=
  unfold loadData;
  destruct (LoadResponses.pilotsRes server) as [|[?|]] eqn:?;
  destruct (LoadResponses.dronesRes server) as [|[?|]] eqn:?;
  destruct (LoadResponses.flightsRes server) as [|[?|]] eqn:?;
  destruct (LoadResponses.zonesRes server) as [|[?|]] eqn:?;
  simpl.

(** X17: when one of the four requests of [loadData] fails, none of the
    four collections is replaced, the error is logged and the loading flag is
    cleared. *)
Theorem loadData_rejected_keeps_data (server : LoadResponses.t)
    (st : PageState.t) :
  LoadResponses.pilotsRes server = FetchRejected
  ∨ LoadResponses.dronesRes server = FetchRejected
  ∨ LoadResponses.flightsRes server = FetchRejected
  ∨ LoadResponses.zonesRes server = FetchRejected →
  PageState.pilots (fst (loadData server st)) = PageState.pilots st
  ∧ PageState.drones (fst (loadData server st)) = PageState.drones st
  ∧ PageState.flights (fst (loadData server st)) = PageState.flights st
  ∧ PageState.restrictedZones (fst (loadData server st))
    = PageState.restrictedZones st
  ∧ PageState.isLoading (fst (loadData server st)) = false
  ∧ LoadError "Error loading data:" ∈ snd (loadData server st).
Proof.
  intros Hrejected.
  loadData_outcomes server;
    try (exfalso; destruct Hrejected as [H|[H|[H|H]]]; discriminate H);
    repeat split; elem_of_literal.
Qed.

Lemma loadData_rejected_keeps_data_witness :
  PageState.pilots (fst (loadData flightsRejected samplePageState))
  = PageState.pilots samplePageState
  ∧ PageState.drones (fst (loadData flightsRejected samplePageState))
    = PageState.drones samplePageState
  ∧ PageState.flights (fst (loadData flightsRejected samplePageState))
    = PageState.flights samplePageState
  ∧ PageState.restrictedZones (fst (loadData flightsRejected samplePageState))
    = PageState.restrictedZones samplePageState
  ∧ PageState.isLoading (fst (loadData flightsRejected samplePageState))
    = false
  ∧ LoadError "Error loading data:"
    ∈ snd (loadData flightsRejected samplePageState).
Proof.
  apply (loadData_rejected_keeps_data flightsRejected samplePageState).
  right. right. left. reflexivity.
Defined.

(** X18: when [loadData] logs no error, the four responses all parsed and
    the page holds exactly what the server sent, with the loading flag
    cleared. *)
Theorem loadData_quiet_means_refreshed (server : LoadResponses.t)
    (st : PageState.t) :
  (∀ label, LoadError label ∉ snd (loadData server st)) →
  ∃ pilots drones flights zones,
    server
    = {| LoadResponses.pilotsRes := FetchResolved (Some pilots);
         LoadResponses.dronesRes := FetchResolved (Some drones);
         LoadResponses.flightsRes := FetchResolved (Some flights);
         LoadResponses.zonesRes := FetchResolved (Some zones) |}
    ∧ fst (loadData server st)
      = {| PageState.pilots := pilots; PageState.drones := drones;
           PageState.flights := flights;
           PageState.restrictedZones := zones;
           PageState.isLoading := false |}.
Proof.
  destruct server as [pr dr fr zr]. unfold loadData. simpl.
  destruct pr as [|[ps|]], dr as [|[ds|]], fr as [|[fs|]], zr as [|[zs|]];
    simpl; intros Hquiet;
    try solve [exfalso; apply (Hquiet "Error loading data:"); elem_of_literal].
  by eexists _, _, _, _.
Qed.

Lemma loadData_quiet_means_refreshed_witness :
  ∃ pilots drones flights zones,
    allEmpty
    = {| LoadResponses.pilotsRes := FetchResolved (Some pilots);
         LoadResponses.dronesRes := FetchResolved (Some drones);
         LoadResponses.flightsRes := FetchResolved (Some flights);
         LoadResponses.zonesRes := FetchResolved (Some zones) |}
    ∧ fst (loadData allEmpty samplePageState)
      = {| PageState.pilots := pilots; PageState.drones := drones;
           PageState.flights := flights;
           PageState.restrictedZones := zones;
           PageState.isLoading := false |}.
Proof.
  apply (loadData_quiet_means_refreshed allEmpty samplePageState).
  intros label H. simpl in H. elem_of_inv H.
Defined.

(** X19: when the four requests of [loadData] are answered, the collections
    are replaced in the order pilots, drones, flights, zones up to the first
    body that does not parse: that one and the later ones keep their old
    value. *)
Theorem loadData_parsed_prefix (server : LoadResponses.t) (st : PageState.t)
    (pilotsJson : option (list Pilot.t)) (dronesJson : option (list Drone.t))
    (flightsJson : option (list Flight.t))
    (zonesJson : option (list RestrictedZone.t)) :
  LoadResponses.pilotsRes server = FetchResolved pilotsJson →
  LoadResponses.dronesRes server = FetchResolved dronesJson →
  LoadResponses.flightsRes server = FetchResolved flightsJson →
  LoadResponses.zonesRes server = FetchResolved zonesJson →
  PageState.pilots (fst (loadData server st))
  = default (PageState.pilots st) pilotsJson
  ∧ PageState.drones (fst (loadData server st))
    = match pilotsJson with
      | Some _ => default (PageState.drones st) dronesJson
      | None => PageState.drones st
      end
  ∧ PageState.flights (fst (loadData server st))
    = match pilotsJson, dronesJson with
      | Some _, Some _ => default (PageState.flights st) flightsJson
      | _, _ => PageState.flights st
      end
  ∧ PageState.restrictedZones (fst (loadData server st))
    = match pilotsJson, dronesJson, flightsJson with
      | Some _, Some _, Some _ =>
          default (PageState.restrictedZones st) zonesJson
      | _, _, _ => PageState.restrictedZones st
      end.
Proof.
  unfold loadData. intros -> -> -> ->.
  by destruct pilotsJson, dronesJson, flightsJson, zonesJson.
Qed.

Lemma loadData_parsed_prefix_witness :
  PageState.pilots (fst (loadData dronesUnparsed samplePageState)) = []
  ∧ PageState.drones (fst (loadData dronesUnparsed samplePageState))
    = PageState.drones samplePageState
  ∧ PageState.flights (fst (loadData dronesUnparsed samplePageState))
    = PageState.flights samplePageState
  ∧ PageState.restrictedZones (fst (loadData dronesUnparsed samplePageState))
    = PageState.restrictedZones samplePageState.
Proof.
  apply (loadData_parsed_prefix dronesUnparsed samplePageState (Some []) None
           (Some []) (Some [])); reflexivity.
Defined.

(** ** The flight list as a whole *)

Lemma triggersAll_app (l1 l2 : list Node) :
  triggersAll (l1 ++ l2) = triggersAll l1 ++ triggersAll l2.
Proof. unfold triggersAll. by rewrite fmap_app, concat_app. Qed.

(** X20: the flights tab offers, in the order of the list, one simulation
    control per approved flight, carrying that flight's identifier, and
    nothing else. *)
Theorem renderFlightList_offers_approved
    (numberText : float → string) (lengthText : nat → string)
    (toLocaleString : string → string)
    (drones : list Drone.t) (pilots : list Pilot.t) (flights : list Flight.t) :
  triggersAll
    (renderFlightList numberText lengthText toLocaleString drones pilots
       flights)
  = (fun f => SimulateFlight (Flight.id f))
      <$> filter (fun f => status_eqb (Flight.status f) approved = true)
            flights.
Proof.
  unfold renderFlightList.
  induction flights as [|f flights IH]; [done|].
  rewrite fmap_cons, triggersAll_cons, IH, renderFlight_triggers.
  destruct (status_eqb (Flight.status f) approved) eqn:Hs.
  - by rewrite filter_cons_True.
  - rewrite filter_cons_False; [done|]. by rewrite Hs.
Qed.
